(** * Model registry and container health check: a shallow embedding

    The development follows two scripts of the repository:

    - [scripts/models/model_registry.py], class [ModelRegistry]: a mapping from
      the composite key ["name:version"] to a model record, held in memory in
      [self.registry] and written as one JSON document by [_save_registry];
    - [scripts/docker/health_check.py], class [HealthChecker] and the script's
      entry point: a polling loop around one of four boolean checks;
    - [scripts/models/sample_usage.py], the example that registers one model
      and lists the registry.

    Python objects become explicit state: a [world] for the registry object
    together with its file, and a trace of observable events for the health
    check.  A call either returns or raises, which is what [outcome] records. *)

From Stdlib Require Import String Ascii List Bool Arith NArith ZArith QArith Lia.
From Stdlib Require Import DecimalString.
Import ListNotations.

Local Close Scope Q_scope.
Local Open Scope string_scope.
Local Open Scope list_scope.

(** ** Fragments of the Python runtime used by the scripts *)

Module Py.

(** Exceptions that the modelled statements can raise: a subscript on a missing
    key, and [open(..., 'w')] on a path that cannot be written. *)
Inductive exn : Type :=
| KeyError (k : string)
| OSError.

Inductive outcome (A : Type) : Type :=
| Returned (a : A)
| Raised (e : exn).

Arguments Returned {A} a.
Arguments Raised {A} e.

Definition raises {A : Type} (o : outcome A) : Prop :=
  exists e, o = Raised e.

(** [str.startswith]: [startswith s p] is [s.startswith(p)]. *)
Definition startswith (s p : string) : bool := String.prefix p s.

(** A [dict] with string keys.  Python dicts iterate in insertion order and an
    assignment to a key that is present keeps its position, so the model is an
    association list in insertion order; [dict_get] reads the first binding. *)
Section Dict.

Context {V : Type}.

Definition dict : Type := list (string * V).

Fixpoint dict_get (k : string) (d : dict) : option V :=
  match d with
  | [] => None
  | (k', v) :: d' => if String.eqb k k' then Some v else dict_get k d'
  end.

(** [k in d] *)
Definition dict_mem (k : string) (d : dict) : bool :=
  match dict_get k d with
  | Some _ => true
  | None => false
  end.

(** [d[k] = v] *)
Fixpoint dict_set (k : string) (v : V) (d : dict) : dict :=
  match d with
  | [] => [(k, v)]
  | (k', v') :: d' =>
      if String.eqb k k' then (k', v) :: d' else (k', v') :: dict_set k v d'
  end.

(** [d.keys()] *)
Definition dict_keys (d : dict) : list string := map fst d.

(** [d[k]] as an expression *)
Definition subscript (d : dict) (k : string) : outcome V :=
  match dict_get k d with
  | Some v => Returned v
  | None => Raised (KeyError k)
  end.

End Dict.

Arguments dict V : clear implicits.

(** [max(first :: rest, key=...)] once the keys have been computed: the running
    maximum is replaced only by a strictly greater key, so the first maximal
    element wins.  Keys are [str], compared lexicographically. *)
Fixpoint max_loop {A : Type} (best : A) (best_key : string)
    (rest : list (A * string)) : A :=
  match rest with
  | [] => best
  | (x, kx) :: rest' =>
      if String.ltb best_key kx then max_loop x kx rest'
      else max_loop best best_key rest'
  end.

(** [str(n)] for a natural number. *)
Definition str_of_nat (n : nat) : string :=
  NilEmpty.string_of_uint (Nat.to_uint n).

(** Statements run against a state [S]; an exception leaves the state as it
    was when it was raised. *)
Section Exec.

Context {S : Type}.

Definition exec (A : Type) : Type := S -> outcome A * S.

Definition ret {A : Type} (a : A) : exec A := fun s => (Returned a, s).

Definition bind {A B : Type} (m : exec A) (k : A -> exec B) : exec B :=
  fun s =>
    match m s with
    | (Returned a, s') => k a s'
    | (Raised e, s') => (Raised e, s')
    end.

Definition lift {A : Type} (o : outcome A) : exec A := fun s => (o, s).

End Exec.

Arguments exec S A : clear implicits.

Declare Scope py_scope.
Delimit Scope py_scope with py.
Notation "x <- c1 ;; c2" := (bind c1 (fun x => c2))
  (at level 61, c1 at next level, right associativity) : py_scope.
Notation "c1 ;; c2" := (bind c1 (fun _ => c2))
  (at level 61, right associativity) : py_scope.

End Py.

Import Py.

(** ** The model registry *)

Module ModelRegistry.

#[local] Set Warnings "-register-all".

(** Values a caller can put in [metadata]: whatever JSON can hold. *)
Inductive value : Type :=
| VNone
| VBool (b : bool)
| VNum (q : Q)
| VStr (s : string)
| VList (l : list value)
| VDict (d : list (string * value)).

(** The dictionary [model_info] built by [register_model]. *)
Record ModelRecord : Type := mkRecord {
  name : string;
  version : string;
  model_path : string;
  model_type : string;
  metrics : dict Q;
  metadata : dict value;
  registered_at : string;
  status : string
}.

Definition set_status (r : ModelRecord) (s : string) : ModelRecord :=
  {| name := name r; version := version r; model_path := model_path r;
     model_type := model_type r; metrics := metrics r; metadata := metadata r;
     registered_at := registered_at r; status := s |}.

(** The object and what it touches: [self.registry], the file at
    [self.registry_path] ([None] when it does not exist, otherwise the mapping
    its JSON text denotes), whether that path can be opened for writing, and
    what has been printed. *)
Record world : Type := mkWorld {
  registry : dict ModelRecord;
  document : option (dict ModelRecord);
  writable : bool;
  stdout : list string
}.

Definition py (A : Type) : Type := exec world A.

Local Open Scope py_scope.

(** Reads and writes of the object's attribute and of the file. *)
Definition get_registry : py (dict ModelRecord) :=
  fun w => (Returned (registry w), w).

Definition put_registry (d : dict ModelRecord) : py unit :=
  fun w => (Returned tt,
            {| registry := d; document := document w;
               writable := writable w; stdout := stdout w |}).

Definition print (line : string) : py unit :=
  fun w => (Returned tt,
            {| registry := registry w; document := document w;
               writable := writable w; stdout := stdout w ++ [line] |}).

Definition path_exists : py bool :=
  fun w => (Returned (match document w with Some _ => true | None => false end), w).

(** [json.load(f)] on the open file.  The file is typed: when it exists it
    holds a mapping of complete records, as [_save_registry] writes them. *)
Definition read_json : py (dict ModelRecord) :=
  fun w => match document w with
           | Some d => (Returned d, w)
           | None => (Raised OSError, w)
           end.

(** [open(path, 'w')] followed by [json.dump].  When the path cannot be
    opened the call raises before the file is touched.  A failure in the middle
    of the dump, after the truncation, is outside this model: the properties
    below say nothing about the file after a write that failed. *)
Definition write_json (d : dict ModelRecord) : py unit :=
  fun w => if writable w
           then (Returned tt,
                 {| registry := registry w; document := Some d;
                    writable := writable w; stdout := stdout w |})
           else (Raised OSError, w).

(** [_load_registry] *)
Definition _load_registry : py (dict ModelRecord) :=
  e <- path_exists ;;
  if e then read_json else ret [].

(** [_save_registry] *)
Definition _save_registry : py unit :=
  d <- get_registry ;;
  write_json d.

(** [__init__]: the object starts from the file as it is at construction. *)
Definition __init__ (doc : option (dict ModelRecord)) (can_write : bool)
    (out : list string) : outcome unit * world :=
  (d <- _load_registry ;; put_registry d)
    {| registry := []; document := doc; writable := can_write; stdout := out |}.

(** The f-string [f"{name}:{version}"]. *)
Definition model_key (name version : string) : string :=
  name ++ ":" ++ version.

(** The dictionary [model_info] that [register_model] builds; [now] is the
    value of [datetime.now().isoformat()] read during the call, and
    [metadata or {}] replaces [None] by an empty dictionary. *)
Definition model_info (now : string) (name version model_path model_type : string)
    (metrics : dict Q) (metadata : option (dict value)) : ModelRecord :=
  {| name := name; version := version; model_path := model_path;
     model_type := model_type; metrics := metrics;
     metadata := match metadata with Some d => d | None => [] end;
     registered_at := now; status := "active" |}.

(** [register_model] *)
Definition register_model (now : string) (name version model_path model_type : string)
    (metrics : dict Q) (metadata : option (dict value)) : py unit :=
  let model_info :=
    model_info now name version model_path model_type metrics metadata in
  let model_key := model_key name version in
  d <- get_registry ;;
  put_registry (dict_set model_key model_info d) ;;
  _save_registry ;;
  print ("Registered model " ++ model_key).

(** The keys computed for [max(..., key=lambda k: self.registry[k]['registered_at'])]. *)
Fixpoint registered_keys (d : dict ModelRecord) (ks : list string)
    : outcome (list (string * string)) :=
  match ks with
  | [] => Returned []
  | k :: ks' =>
      match subscript d k with
      | Raised e => Raised e
      | Returned r =>
          match registered_keys d ks' with
          | Raised e => Raised e
          | Returned l => Returned ((k, registered_at r) :: l)
          end
      end
  end.

(** The key under which the lambda passed to [max] ranks [k]. *)
Definition stamp (d : dict ModelRecord) (k : string) : string :=
  match dict_get k d with
  | Some r => registered_at r
  | None => ""
  end.

(** [get_model_info] *)
Definition get_model_info (name version : string) : py (option ModelRecord) :=
  if String.eqb version "latest" then
    d <- get_registry ;;
    let model_versions :=
      filter (fun k => startswith k (name ++ ":")) (dict_keys d) in
    match model_versions with
    | [] => ret None
    | k0 :: ks =>
        r0 <- lift (subscript d k0) ;;
        keyed <- lift (registered_keys d ks) ;;
        let latest_key := max_loop k0 (registered_at r0) keyed in
        r <- lift (subscript d latest_key) ;;
        ret (Some r)
    end
  else
    let model_key := model_key name version in
    d <- get_registry ;;
    ret (dict_get model_key d).

(** The file as another process leaves it after replacing its content; the
    object is not told. *)
Definition replaced_on_disk (doc : option (dict ModelRecord)) (w : world) : world :=
  {| registry := registry w; document := doc;
     writable := writable w; stdout := stdout w |}.

(** [list_models] *)
Definition list_models : py (dict ModelRecord) := get_registry.

(** [update_model_status] *)
Definition update_model_status (name version status : string) : py unit :=
  let model_key := model_key name version in
  d <- get_registry ;;
  if dict_mem model_key d then
    r <- lift (subscript d model_key) ;;
    put_registry (dict_set model_key (set_status r status) d) ;;
    _save_registry
  else
    ret tt.

(** *** [load_model]

    What [load_model] needs from outside the class: [pathlib] ([str(Path(p))],
    [Path(p).exists()], [Path(p).suffix]) and the two deserialisers.  [R]
    stands for whatever a deserialiser call does with a file that is there. *)
Record runtime (R : Type) : Type := mkRuntime {
  path_str : string -> string;
  exists_ : string -> bool;
  suffix : string -> string;
  torch_load : string -> string -> R;
  pickle_load : string -> R
}.

Arguments path_str {R} _ _.
Arguments exists_ {R} _ _.
Arguments suffix {R} _ _.
Arguments torch_load {R} _ _ _.
Arguments pickle_load {R} _ _.

(** The exceptions [load_model] raises itself. *)
Inductive load_exn : Type :=
| ValueError (msg : string)
| FileNotFoundError (msg : string).

(** [load_model]; [inl] is a raised exception, [inr] the call of a
    deserialiser. *)
Definition load_model {R : Type} (rt : runtime R) (name version device : string)
    : py (load_exn + R) :=
  model_info <- get_model_info name version ;;
  match model_info with
  | None =>
      ret (inl (ValueError
                  ("Model " ++ name ++ ":" ++ version ++ " not found in registry")))
  | Some info =>
      let path := model_path info in
      if negb (exists_ rt path) then
        ret (inl (FileNotFoundError ("Model file not found: " ++ path_str rt path)))
      else if String.eqb (suffix rt path) ".pth" then
        ret (inr (torch_load rt path device))
      else if String.eqb (suffix rt path) ".pkl" then
        ret (inr (pickle_load rt path))
      else
        ret (inl (ValueError ("Unsupported model format: " ++ suffix rt path)))
  end.

(** *** Notions used to state properties of the registry *)

(** The key that the ["latest"] branch of [get_model_info] settles on. *)
Definition resolve_latest (d : dict ModelRecord) (name : string) : option string :=
  match filter (fun k => startswith k (name ++ ":")) (dict_keys d) with
  | [] => None
  | k0 :: ks => Some (max_loop k0 (stamp d k0) (map (fun k => (k, stamp d k)) ks))
  end.

Fixpoint has_colon (s : string) : bool :=
  match s with
  | EmptyString => false
  | String a s' => if Ascii.eqb a ":" then true else has_colon s'
  end.

(** Every record sits under the key made of its own name and version, as
    [register_model] puts it. *)
Definition keyed_by_identity (d : dict ModelRecord) : Prop :=
  forall k r, dict_get k d = Some r -> k = model_key (name r) (version r).

(** No registered name contains a colon. *)
Definition colon_free_names (d : dict ModelRecord) : Prop :=
  forall k r, dict_get k d = Some r -> has_colon (name r) = false.

(** [status] aside, the record. *)
Definition without_status (r : ModelRecord) : ModelRecord := set_status r "".

(** Concrete states used to run the operations. *)
Definition just_constructed : world :=
  snd (__init__ None true []).

Definition m_v1 : ModelRecord :=
  model_info "2024-01-01T10:00:00" "m" "v1" "models/artifacts/m1.pth"
    "classification" [("accuracy", (85 # 100)%Q)] None.

Definition m_v2_from_elsewhere : ModelRecord :=
  model_info "2024-06-01T08:00:00" "m" "v2" "models/artifacts/m2.pth"
    "classification" [("accuracy", (70 # 100)%Q)] None.

Definition holding_m_v1 : world :=
  snd (__init__ (Some [("m:v1", m_v1)]) true []).

End ModelRegistry.

(** ** The health check *)

Module HealthChecker.

Local Open Scope py_scope.

(** The four bound methods stored in [self.checks]. *)
Inductive check : Type :=
| check_api_health
| check_database_health
| check_redis_health
| check_models_health.

Definition check_eqb (a b : check) : bool :=
  match a, b with
  | check_api_health, check_api_health
  | check_database_health, check_database_health
  | check_redis_health, check_redis_health
  | check_models_health, check_models_health => true
  | _, _ => false
  end.

(** [self.checks], built once in [__init__] and never assigned again. *)
Definition checks : dict check :=
  [("api", check_api_health);
   ("database", check_database_health);
   ("redis", check_redis_health);
   ("models", check_models_health)].

(** What a run does that can be observed from outside, in order. *)
Inductive event : Type :=
| Called (c : check) (result : bool)
| Printed (line : string)
| Slept (seconds : Z).

(** Each check asks something outside the process (an HTTP endpoint, a
    database, a cache, three files) and turns the expected failures into
    [False].  [answers c i] is what the [i]-th call of [c], counted from 0,
    finds; [trace] is what has happened so far. *)
Record world : Type := mkWorld {
  answers : check -> nat -> bool;
  trace : list event
}.

Definition hc (A : Type) : Type := exec world A.

Definition log (e : event) : hc unit :=
  fun w => (Returned tt, {| answers := answers w; trace := trace w ++ [e] |}).

Fixpoint invocations (c : check) (tr : list event) : nat :=
  match tr with
  | [] => 0
  | Called c' _ :: tr' =>
      if check_eqb c c' then S (invocations c tr') else invocations c tr'
  | _ :: tr' => invocations c tr'
  end.

(** Calling one of the check methods. *)
Definition call (c : check) : hc bool :=
  fun w =>
    let b := answers w c (invocations c (trace w)) in
    (Returned b, {| answers := answers w; trace := trace w ++ [Called c b] |}).

Definition print (line : string) : hc unit := log (Printed line).

(** [time.sleep] *)
Definition sleep (seconds : Z) : hc unit := log (Slept seconds).

Definition passed_line (service_type : string) : string :=
  service_type ++ " health check passed".

Definition failed_line (service_type : string) (attempt max_retries : nat) : string :=
  service_type ++ " health check failed (attempt " ++ str_of_nat (attempt + 1)
    ++ "/" ++ str_of_nat max_retries ++ ")".

(** The body of [for attempt in range(max_retries)], over the values that
    [range] still has to produce; falling out of the loop reaches the final
    [return False]. *)
Fixpoint retry_loop (service_type : string) (max_retries : nat) (retry_delay : Z)
    (range : list nat) : hc bool :=
  match range with
  | [] => ret false
  | attempt :: range' =>
      c <- lift (subscript checks service_type) ;;
      ok <- call c ;;
      if ok then
        print (passed_line service_type) ;;
        ret true
      else
        print (failed_line service_type attempt max_retries) ;;
        sleep retry_delay ;;
        retry_loop service_type max_retries retry_delay range'
  end.

(** [run_health_check] with its two local constants as arguments. *)
Definition run_health_check_with (max_retries : nat) (retry_delay : Z)
    (service_type : string) : hc bool :=
  if negb (dict_mem service_type checks) then
    print ("Unknown service type: " ++ service_type) ;;
    ret false
  else
    retry_loop service_type max_retries retry_delay (seq 0 max_retries).

(** [run_health_check]: [max_retries = 30], [retry_delay = 2]. *)
Definition run_health_check (service_type : string) : hc bool :=
  run_health_check_with 30 2 service_type.

(** The script's entry point; the result is the argument of [sys.exit]. *)
Definition main (argv : list string) : hc Z :=
  if negb (Nat.eqb (List.length argv) 2) then
    print "Usage: python health_check.py <service_type>" ;;
    print "Service types: api, database, redis, models" ;;
    ret 1%Z
  else
    let service_type := nth 1 argv "" in
    ok <- run_health_check service_type ;;
    if ok then ret 0%Z
    else
      print ("Health check failed for " ++ service_type) ;;
      ret 1%Z.

(** Time spent in [time.sleep] along a trace, and the number of sleeps. *)
Fixpoint slept (tr : list event) : Z :=
  match tr with
  | [] => 0
  | Slept d :: tr' => d + slept tr'
  | _ :: tr' => slept tr'
  end.

Fixpoint sleeps (tr : list event) : nat :=
  match tr with
  | [] => 0
  | Slept _ :: tr' => S (sleeps tr')
  | _ :: tr' => sleeps tr'
  end.

Definition fresh (f : check -> nat -> bool) : world :=
  {| answers := f; trace := [] |}.

(** What one unsuccessful pass through the loop body leaves in the trace. *)
Definition failed_round (c : check) (service_type : string) (max_retries : nat)
    (retry_delay : Z) (attempt : nat) : list event :=
  [Called c false;
   Printed (failed_line service_type attempt max_retries);
   Slept retry_delay].

(** What the unsuccessful passes for the attempts in [l] leave. *)
Definition failed_rounds (c : check) (service_type : string) (max_retries : nat)
    (retry_delay : Z) (l : list nat) : list event :=
  flat_map (failed_round c service_type max_retries retry_delay) l.

(** What the successful pass leaves. *)
Definition passed_round (c : check) (service_type : string) : list event :=
  [Called c true; Printed (passed_line service_type)].

(** The number of lines printed along a trace. *)
Fixpoint prints (tr : list event) : nat :=
  match tr with
  | [] => 0
  | Printed _ :: tr' => S (prints tr')
  | _ :: tr' => prints tr'
  end.

(** Whether some check has answered [True] along a trace. *)
Fixpoint succeeded (tr : list event) : bool :=
  match tr with
  | [] => false
  | Called _ true :: _ => true
  | _ :: tr' => succeeded tr'
  end.

End HealthChecker.

(** ** The example script [scripts/models/sample_usage.py] *)

Module SampleUsage.

Import ModelRegistry.

Local Open Scope py_scope.

(** [for x in l: body(x)] *)
Fixpoint for_each {A : Type} (l : list A) (body : A -> py unit) : py unit :=
  match l with
  | [] => ret tt
  | x :: l' => body x ;; for_each l' body
  end.

Definition listing_line (model_key : string) (info : ModelRecord) : string :=
  "  " ++ model_key ++ ": " ++ model_type info ++ " - " ++ status info.

Definition efficientnet_metrics : dict Q :=
  [("accuracy", (85 # 100)%Q);
   ("f1_score", (83 # 100)%Q);
   ("inference_time_ms", (452 # 10)%Q)].

Definition efficientnet_metadata : dict value :=
  [("architecture", VStr "EfficientNet-B0");
   ("input_shape", VList [VNum (3 # 1)%Q; VNum (224 # 1)%Q; VNum (224 # 1)%Q]);
   ("num_classes", VNum (100 # 1)%Q);
   ("optimizer", VStr "AdamW");
   ("learning_rate", VNum (1 # 1000)%Q);
   ("training_epochs", VNum (50 # 1)%Q)].

(** The record the script registers when the clock reads [now]. *)
Definition efficientnet (now : string) : ModelRecord :=
  model_info now "efficientnet_classification" "v1.0.0"
    "models/artifacts/efficientnet_b0.pth" "classification"
    efficientnet_metrics (Some efficientnet_metadata).

(** The statements after [registry = ModelRegistry()]. *)
Definition script_body (now : string) : py unit :=
  register_model now "efficientnet_classification" "v1.0.0"
    "models/artifacts/efficientnet_b0.pth" "classification"
    efficientnet_metrics (Some efficientnet_metadata) ;;
  print "Registered models:" ;;
  items <- list_models ;;
  for_each items (fun item => print (listing_line (fst item) (snd item))).

(** The script run on the registry file [doc], nothing printed before. *)
Definition script (now : string) (doc : option (dict ModelRecord)) (can_write : bool)
    : outcome unit * world :=
  match __init__ doc can_write [] with
  | (Returned _, w) => script_body now w
  | (Raised e, w) => (Raised e, w)
  end.

End SampleUsage.

(** * Properties *)

(** ** Lexicographic order on [str] *)

Section StrOrder.

Lemma ascii_compare_refl (a : ascii) : Ascii.compare a a = Eq.
Proof. unfold Ascii.compare. apply N.compare_refl. Qed.

Lemma str_compare_refl (s : string) : String.compare s s = Eq.
Proof.
  induction s as [|a s IH]; simpl; [reflexivity|].
  now rewrite ascii_compare_refl.
Qed.

Lemma ascii_lt_trans (a b c : ascii) :
  Ascii.compare a b = Lt -> Ascii.compare b c = Lt -> Ascii.compare a c = Lt.
Proof.
  unfold Ascii.compare. rewrite !N.compare_lt_iff. apply N.lt_trans.
Qed.

Lemma str_lt_trans (s1 s2 s3 : string) :
  String.compare s1 s2 = Lt -> String.compare s2 s3 = Lt ->
  String.compare s1 s3 = Lt.
Proof.
  revert s2 s3.
  induction s1 as [|a s1 IH]; intros [|b s2] [|c s3]; simpl;
    try discriminate; try reflexivity.
  destruct (Ascii.compare a b) eqn:Hab; try discriminate;
    destruct (Ascii.compare b c) eqn:Hbc; try discriminate; intros H12 H23.
  - apply Ascii.compare_eq_iff in Hab, Hbc. subst.
    rewrite ascii_compare_refl. eauto.
  - apply Ascii.compare_eq_iff in Hab. subst. now rewrite Hbc.
  - apply Ascii.compare_eq_iff in Hbc. subst. now rewrite Hab.
  - now rewrite (ascii_lt_trans _ _ _ Hab Hbc).
Qed.

Lemma str_leb_refl (s : string) : String.leb s s = true.
Proof. unfold String.leb. now rewrite str_compare_refl. Qed.

Lemma str_ltb_leb (s1 s2 : string) :
  String.ltb s1 s2 = true -> String.leb s1 s2 = true.
Proof.
  unfold String.ltb, String.leb. now destruct (String.compare s1 s2).
Qed.

Lemma str_ltb_false_leb (s1 s2 : string) :
  String.ltb s1 s2 = false -> String.leb s2 s1 = true.
Proof.
  unfold String.ltb, String.leb. rewrite (String.compare_antisym s2 s1).
  now destruct (String.compare s1 s2).
Qed.

Lemma str_leb_ltb_absurd (s1 s2 : string) :
  String.leb s1 s2 = true -> String.ltb s2 s1 = true -> False.
Proof.
  unfold String.ltb, String.leb. rewrite (String.compare_antisym s2 s1).
  now destruct (String.compare s1 s2).
Qed.

Lemma str_leb_trans (s1 s2 s3 : string) :
  String.leb s1 s2 = true -> String.leb s2 s3 = true -> String.leb s1 s3 = true.
Proof.
  unfold String.leb.
  destruct (String.compare s1 s2) eqn:H12; try discriminate; intros _;
    destruct (String.compare s2 s3) eqn:H23; try discriminate; intros _.
  - apply String.compare_eq_iff in H12, H23. subst. now rewrite str_compare_refl.
  - apply String.compare_eq_iff in H12. subst. now rewrite H23.
  - apply String.compare_eq_iff in H23. subst. now rewrite H12.
  - now rewrite (str_lt_trans _ _ _ H12 H23).
Qed.

Lemma str_ltb_irrefl (s : string) : String.ltb s s = false.
Proof. unfold String.ltb. now rewrite str_compare_refl. Qed.

Lemma startswith_append (p s : string) : startswith (p ++ s) p = true.
Proof.
  unfold startswith.
  induction p as [|a p IH]; simpl; [now destruct s|].
  destruct (ascii_dec a a); [assumption|congruence].
Qed.

End StrOrder.

(** ** Dictionaries *)

Section DictFacts.

Context {V : Type}.

Implicit Types (d : dict V) (k : string) (v : V).

Lemma dict_get_set_same k v d : dict_get k (dict_set k v d) = Some v.
Proof.
  induction d as [|[k' v'] d IH]; simpl.
  - now rewrite String.eqb_refl.
  - destruct (String.eqb k k') eqn:E; simpl; rewrite E; auto.
Qed.

Lemma dict_get_set_other k k' v d :
  k' <> k -> dict_get k' (dict_set k v d) = dict_get k' d.
Proof.
  intros Hne.
  induction d as [|[k0 v0] d IH]; simpl.
  - apply String.eqb_neq in Hne. now rewrite Hne.
  - destruct (String.eqb k k0) eqn:E; simpl.
    + apply String.eqb_eq in E. subst k0.
      apply String.eqb_neq in Hne. now rewrite Hne.
    + now rewrite IH.
Qed.

Lemma dict_get_keys k v d : dict_get k d = Some v -> In k (dict_keys d).
Proof.
  induction d as [|[k' v'] d IH]; simpl; [discriminate|].
  destruct (String.eqb k k') eqn:E.
  - apply String.eqb_eq in E. auto.
  - auto.
Qed.

Lemma keys_dict_get k d : In k (dict_keys d) -> exists v, dict_get k d = Some v.
Proof.
  induction d as [|[k' v'] d IH]; simpl; [tauto|].
  intros [-> | Hin].
  - rewrite String.eqb_refl. eauto.
  - destruct (String.eqb k k'); eauto.
Qed.

Lemma dict_keys_set_present k v d :
  dict_mem k d = true -> dict_keys (dict_set k v d) = dict_keys d.
Proof.
  unfold dict_mem.
  induction d as [|[k' v'] d IH]; simpl; [discriminate|].
  destruct (String.eqb k k') eqn:E; simpl; [reflexivity|].
  intros H. now rewrite IH.
Qed.

Lemma dict_mem_set k v d : dict_mem k (dict_set k v d) = true.
Proof. unfold dict_mem. now rewrite dict_get_set_same. Qed.

End DictFacts.

(** ** The first maximal element *)

Lemma max_loop_spec {A : Type} (rest : list (A * string)) :
  forall (best : A) (best_key : string),
  exists kx,
    In (max_loop best best_key rest, kx) ((best, best_key) :: rest) /\
    forall y ky, In (y, ky) ((best, best_key) :: rest) -> String.leb ky kx = true.
Proof.
  induction rest as [|[x kx] rest IH]; intros best best_key.
  - exists best_key. simpl. split; [auto|].
    intros y ky [E|[]]. inversion E; subst. apply str_leb_refl.
  - simpl max_loop. destruct (String.ltb best_key kx) eqn:Hlt.
    + destruct (IH x kx) as (km & Hin & Hmax).
      exists km. split; [right; exact Hin|].
      intros y ky [E|Hy]; [|now apply (Hmax y)].
      inversion E; subst.
      apply str_leb_trans with kx; [now apply str_ltb_leb|].
      apply (Hmax x). now left.
    + destruct (IH best best_key) as (km & Hin & Hmax).
      exists km. split.
      * destruct Hin as [E|Hin]; [now left|right; now right].
      * intros y ky [E|[E|Hy]].
        -- apply (Hmax y). now left.
        -- inversion E; subst.
           apply str_leb_trans with best_key; [now apply str_ltb_false_leb|].
           apply (Hmax best). now left.
        -- apply (Hmax y). now right.
Qed.

(** ** Reading the registry *)

Section RegistryReads.

Import ModelRegistry.

Local Open Scope py_scope.

Lemma registered_keys_total (d : dict ModelRecord) (ks : list string) :
  (forall k, In k ks -> In k (dict_keys d)) ->
  registered_keys d ks = Returned (map (fun k => (k, stamp d k)) ks).
Proof.
  induction ks as [|k ks IH]; intros Hks; simpl; [reflexivity|].
  destruct (keys_dict_get k d) as [r Hr]; [apply Hks; now left|].
  unfold subscript, stamp. rewrite Hr.
  rewrite IH; [reflexivity|]. intros k' Hk'. apply Hks. now right.
Qed.

(** What [get_model_info name "latest"] computes: nothing when no key starts
    with ["name:"], otherwise a record under such a key whose [registered_at]
    no other such record exceeds.  The object is left as it was. *)
Lemma get_latest_spec (w : world) (n : string) :
  (get_model_info n "latest" w = (Returned None, w) /\
   forall k, In k (dict_keys (registry w)) -> startswith k (n ++ ":") = false)
  \/
  (exists k r,
     get_model_info n "latest" w = (Returned (Some r), w) /\
     startswith k (n ++ ":") = true /\
     dict_get k (registry w) = Some r /\
     forall k' r', startswith k' (n ++ ":") = true ->
                   dict_get k' (registry w) = Some r' ->
                   String.leb (registered_at r') (registered_at r) = true).
Proof.
  unfold get_model_info. rewrite String.eqb_refl.
  unfold bind, get_registry, ret, lift. cbv beta iota.
  set (d := registry w).
  set (p := fun k : string => startswith k (n ++ ":")).
  destruct (filter p (dict_keys d)) as [|k0 ks] eqn:Hf.
  - left. split; [reflexivity|].
    intros k Hk. destruct (p k) eqn:Hp; [|exact Hp].
    assert (Hin : In k (filter p (dict_keys d))) by (apply filter_In; auto).
    rewrite Hf in Hin. destruct Hin.
  - right.
    assert (Hsub : forall k, In k (k0 :: ks) -> In k (dict_keys d) /\ p k = true).
    { intros k Hk. rewrite <- Hf in Hk. now apply filter_In in Hk. }
    destruct (keys_dict_get k0 d) as [r0 Hr0]; [apply Hsub; now left|].
    unfold subscript at 1. rewrite Hr0.
    rewrite registered_keys_total by (intros k Hk; apply Hsub; now right).
    cbv beta iota.
    replace (registered_at r0) with (stamp d k0) by (unfold stamp; now rewrite Hr0).
    destruct (max_loop_spec (map (fun k => (k, stamp d k)) ks) k0 (stamp d k0))
      as (km & Hin & Hmax).
    set (latest_key := max_loop k0 (stamp d k0) (map (fun k => (k, stamp d k)) ks)) in *.
    change ((k0, stamp d k0) :: map (fun k => (k, stamp d k)) ks)
      with (map (fun k => (k, stamp d k)) (k0 :: ks)) in Hin, Hmax.
    apply in_map_iff in Hin. destruct Hin as (k1 & E & Hk1).
    inversion E; subst k1. clear E.
    destruct (Hsub _ Hk1) as [Hkeys Hp].
    destruct (keys_dict_get _ _ Hkeys) as [r Hr].
    exists latest_key, r. unfold subscript. rewrite Hr.
    split; [reflexivity|]. split; [exact Hp|]. split; [reflexivity|].
    intros k' r' Hp' Hr'.
    assert (Hk' : In k' (k0 :: ks)).
    { rewrite <- Hf. apply filter_In. split; [|exact Hp'].
      eapply dict_get_keys; eauto. }
    specialize (Hmax k' (stamp d k')).
    assert (Hs : String.leb (stamp d k') km = true).
    { apply Hmax. apply in_map_iff. eauto. }
    unfold stamp in Hs, H1. rewrite Hr' in Hs. rewrite Hr in H1. now subst km.
Qed.

(** A call that only reads leaves the object, the file and the output alone. *)
Lemma get_model_info_frame (w : world) (n v : string) :
  snd (get_model_info n v w) = w.
Proof.
  destruct (String.eqb v "latest") eqn:E.
  - apply String.eqb_eq in E. subst v.
    destruct (get_latest_spec w n) as [[-> _] | (k & r & -> & _)]; reflexivity.
  - unfold get_model_info. rewrite E. reflexivity.
Qed.

(** With any other version the lookup is by exact key. *)
Lemma get_model_info_exact (w : world) (n v : string) :
  v <> "latest" ->
  get_model_info n v w = (Returned (dict_get (model_key n v) (registry w)), w).
Proof.
  intros Hv. apply String.eqb_neq in Hv.
  unfold get_model_info. rewrite Hv. reflexivity.
Qed.

End RegistryReads.

(** ** Writing the registry *)

Section RegistryWrites.

Import ModelRegistry.

Local Open Scope py_scope.

Variables (now n v path ty : string) (ms : dict Q) (md : option (dict value)).

Lemma register_model_registry (w : world) :
  registry (snd (register_model now n v path ty ms md w)) =
  dict_set (model_key n v) (model_info now n v path ty ms md) (registry w).
Proof.
  unfold register_model, bind, get_registry, put_registry, _save_registry,
    write_json, print. simpl.
  destruct (writable w); reflexivity.
Qed.

Lemma register_model_writable (w : world) :
  writable (snd (register_model now n v path ty ms md w)) = writable w.
Proof.
  unfold register_model, bind, get_registry, put_registry, _save_registry,
    write_json, print. simpl.
  destruct (writable w) eqn:E; simpl; auto.
Qed.

Lemma register_model_returns (w : world) :
  writable w = true ->
  fst (register_model now n v path ty ms md w) = Returned tt /\
  document (snd (register_model now n v path ty ms md w)) =
  Some (registry (snd (register_model now n v path ty ms md w))).
Proof.
  intros Hw.
  unfold register_model, bind, get_registry, put_registry, _save_registry,
    write_json, print. simpl.
  rewrite Hw. simpl. auto.
Qed.

(** After a registration whose timestamp is later than that of every other
    record under the prefix, ["latest"] resolves to the new record. *)
Lemma latest_after_register (w : world) :
  (forall k r, startswith k (n ++ ":") = true ->
               dict_get k (registry w) = Some r ->
               k <> model_key n v ->
               String.ltb (registered_at r) now = true) ->
  fst (get_model_info n "latest" (snd (register_model now n v path ty ms md w))) =
  Returned (Some (model_info now n v path ty ms md)).
Proof.
  intros Hold.
  set (w1 := snd (register_model now n v path ty ms md w)).
  assert (Hreg : registry w1 =
                 dict_set (model_key n v) (model_info now n v path ty ms md) (registry w))
    by apply register_model_registry.
  assert (Hnew : dict_get (model_key n v) (registry w1) =
                 Some (model_info now n v path ty ms md))
    by (rewrite Hreg; apply dict_get_set_same).
  assert (Hpre : startswith (model_key n v) (n ++ ":") = true).
  { unfold model_key.
    replace (n ++ ":" ++ v)%string with ((n ++ ":") ++ v)%string;
      [apply startswith_append|].
    clear. induction n as [|a s IH]; simpl; [reflexivity|now rewrite IH]. }
  destruct (get_latest_spec w1 n) as [[_ Hnone] | (k & r & -> & Hk & Hr & Hmax)].
  - rewrite Hnone in Hpre; [discriminate|]. eapply dict_get_keys; eauto.
  - simpl. destruct (string_dec k (model_key n v)) as [->|Hne].
    + congruence.
    + exfalso.
      assert (Hr0 : dict_get k (registry w) = Some r).
      { rewrite Hreg in Hr. now rewrite dict_get_set_other in Hr. }
      specialize (Hmax _ _ Hpre Hnew). simpl in Hmax.
      eapply str_leb_ltb_absurd; eauto.
Qed.

End RegistryWrites.

Import ModelRegistry.

(** ** The registry's operations *)

Section RegistryClaims.

Local Open Scope py_scope.

(** C9.  [get_model_info], for every name and version including ["latest"],
    and [list_models] only read: after either call the in-memory mapping, the
    persisted document (and everything else in the state) are exactly as they
    were before the call. *)
Theorem reads_change_nothing (w : world) (n v : string) :
  snd (get_model_info n v w) = w /\
  registry (snd (get_model_info n v w)) = registry w /\
  document (snd (get_model_info n v w)) = document w /\
  snd (list_models w) = w.
Proof.
  rewrite get_model_info_frame. repeat split; reflexivity.
Qed.

(** C1, as the code has it.  When no record exists under ["name:version"],
    [update_model_status] returns normally, exactly as a successful call does:
    nothing is raised, no record is created, and the in-memory registry, the
    persisted document and the output are unchanged. *)
Theorem update_status_missing_key (w : world) (n v s : string) :
  dict_get (model_key n v) (registry w) = None ->
  update_model_status n v s w = (Returned tt, w).
Proof.
  intros Hnone. unfold update_model_status, bind, get_registry, dict_mem.
  now rewrite Hnone.
Qed.

Lemma update_status_missing_key_witness :
  update_model_status "missing" "v1" "archived" holding_m_v1 =
  (Returned tt, holding_m_v1).
Proof.
  apply update_status_missing_key. reflexivity.
Defined.

(** C1 as stated fails: on a registry without ["missing:v1"] the call does not
    fail, it returns. *)
Lemma update_status_missing_key_counterexample :
  dict_get (model_key "missing" "v1") (registry holding_m_v1) = None /\
  fst (update_model_status "missing" "v1" "archived" holding_m_v1) = Returned tt /\
  ~ raises (fst (update_model_status "missing" "v1" "archived" holding_m_v1)).
Proof.
  split; [reflexivity|]. split; [reflexivity|].
  intros [e He]. vm_compute in He. discriminate He.
Qed.

(** C2, as the code has it.  For every existing record and every string
    [status] whatsoever, in the set of three or not, [update_model_status] does
    not refuse it: the stored status of that record becomes [status] in memory,
    the record's other fields and every other key staying as they were, and,
    when the file is written, the call returns normally and the persisted
    document is the updated mapping. *)
Theorem update_status_any_string (w : world) (n v s : string) (r : ModelRecord) :
  dict_get (model_key n v) (registry w) = Some r ->
  let res := update_model_status n v s w in
  registry (snd res) = dict_set (model_key n v) (set_status r s) (registry w) /\
  dict_get (model_key n v) (registry (snd res)) = Some (set_status r s) /\
  status (set_status r s) = s /\
  (forall k, k <> model_key n v ->
             dict_get k (registry (snd res)) = dict_get k (registry w)) /\
  (writable w = true ->
   fst res = Returned tt /\
   document (snd res) = Some (registry (snd res)) /\
   option_map (fun d => option_map status (dict_get (model_key n v) d))
     (document (snd res)) = Some (Some s)).
Proof.
  intros Hr res.
  assert (Hreg : registry (snd res) =
                 dict_set (model_key n v) (set_status r s) (registry w)).
  { unfold res, update_model_status, bind, get_registry, dict_mem, lift, subscript,
      put_registry, _save_registry, write_json.
    rewrite Hr. simpl. destruct (writable w); reflexivity. }
  split; [exact Hreg|]. rewrite Hreg.
  split; [apply dict_get_set_same|].
  split; [reflexivity|].
  split; [intros k Hk; now apply dict_get_set_other|].
  intros Hw.
  assert (Hrun : fst res = Returned tt /\
                 document (snd res) =
                 Some (dict_set (model_key n v) (set_status r s) (registry w))).
  { unfold res, update_model_status, bind, get_registry, dict_mem, lift, subscript,
      put_registry, _save_registry, write_json.
    rewrite Hr. simpl. rewrite Hw. simpl. auto. }
  destruct Hrun as [Hret Hdoc].
  split; [exact Hret|]. split; [exact Hdoc|].
  rewrite Hdoc. simpl. now rewrite dict_get_set_same.
Qed.

Lemma update_status_any_string_witness :
  let res := update_model_status "m" "v1" "bogus" holding_m_v1 in
  registry (snd res) = [("m:v1", set_status m_v1 "bogus")] /\
  fst res = Returned tt /\
  document (snd res) = Some [("m:v1", set_status m_v1 "bogus")].
Proof.
  destruct (update_status_any_string holding_m_v1 "m" "v1" "bogus" m_v1 eq_refl)
    as (Hreg & _ & _ & _ & Hw).
  destruct (Hw eq_refl) as (Hret & Hdoc & _).
  cbv zeta. rewrite Hdoc, Hreg. auto.
Defined.

(** C2 as stated fails: ["bogus"] is accepted and stored, in memory and in the
    persisted document. *)
Lemma update_status_any_string_counterexample :
  let res := update_model_status "m" "v1" "bogus" holding_m_v1 in
  dict_get "m:v1" (registry holding_m_v1) = Some m_v1 /\
  status m_v1 = "active" /\
  ~ raises (fst res) /\
  option_map status (dict_get "m:v1" (registry (snd res))) = Some "bogus" /\
  option_map (fun d => option_map status (dict_get "m:v1" d)) (document (snd res))
  = Some (Some "bogus").
Proof.
  cbv zeta. split; [reflexivity|]. split; [reflexivity|].
  split; [|split; reflexivity].
  intros [e He]. vm_compute in He. discriminate He.
Qed.

(** The result of a read is a function of [self.registry] alone. *)
Lemma get_model_info_reads_memory (w1 w2 : world) (n v : string) :
  registry w1 = registry w2 ->
  fst (get_model_info n v w1) = fst (get_model_info n v w2).
Proof.
  intros H.
  unfold get_model_info.
  destruct (String.eqb v "latest");
    unfold bind, get_registry, ret, lift; cbv beta iota; rewrite H;
    [|reflexivity].
  destruct (filter _ _); [reflexivity|].
  destruct (subscript _ _); [|reflexivity].
  destruct (registered_keys _ _); [|reflexivity].
  destruct (subscript _ _); reflexivity.
Qed.

(** C3, as the code has it.  The object keeps a copy of the registry in
    [self.registry], loaded from the file once, by [__init__]; the result of
    [get_model_info] and of [list_models] is determined by that copy alone, so
    replacing the persisted document afterwards changes no later read. *)
Theorem reads_use_memory_copy (w1 w2 : world) (n v : string) :
  registry w1 = registry w2 ->
  fst (get_model_info n v w1) = fst (get_model_info n v w2) /\
  fst (list_models w1) = fst (list_models w2) /\
  (forall doc,
     fst (get_model_info n v (replaced_on_disk doc w1)) = fst (get_model_info n v w1) /\
     fst (list_models (replaced_on_disk doc w1)) = fst (list_models w1)) /\
  (forall doc can_write out,
     registry (snd (__init__ doc can_write out)) =
     match doc with Some d => d | None => [] end).
Proof.
  intros H. split; [now apply get_model_info_reads_memory|].
  split; [unfold list_models, get_registry; simpl; now rewrite H|].
  split.
  - intros doc. split; [now apply get_model_info_reads_memory|reflexivity].
  - intros [d|] can_write out; reflexivity.
Qed.

Lemma reads_use_memory_copy_witness :
  fst (get_model_info "m" "latest" (replaced_on_disk None holding_m_v1)) =
  fst (get_model_info "m" "latest" holding_m_v1).
Proof.
  apply (reads_use_memory_copy (replaced_on_disk None holding_m_v1) holding_m_v1
           "m" "latest").
  reflexivity.
Defined.

(** C3 as stated fails: an object constructed when there was no file still
    answers from its empty copy after the file has come to hold ["m:v1"],
    while an object constructed on that same document finds the record. *)
Lemma reads_use_memory_copy_counterexample :
  let stale := replaced_on_disk (Some [("m:v1", m_v1)]) just_constructed in
  document stale = document holding_m_v1 /\
  fst (get_model_info "m" "v1" stale) = Returned None /\
  fst (get_model_info "m" "latest" stale) = Returned None /\
  fst (list_models stale) = Returned [] /\
  fst (get_model_info "m" "v1" holding_m_v1) = Returned (Some m_v1) /\
  ~ (forall (w1 w2 : world) (n v : string),
       document w1 = document w2 ->
       fst (get_model_info n v w1) = fst (get_model_info n v w2)).
Proof.
  cbv zeta. repeat (split; [reflexivity|]).
  intros H.
  specialize (H (replaced_on_disk (Some [("m:v1", m_v1)]) just_constructed)
                holding_m_v1 "m" "v1" eq_refl).
  vm_compute in H. discriminate H.
Qed.

(** C7, as the code has it.  Registering the same [(name, version)] twice, for
    a version other than the token ["latest"], overwrites the first record in
    place: no key is added, nothing is raised when the file can be written,
    and afterwards [get_model_info name version] returns exactly the record of
    the second call, with its metrics, its metadata and its timestamp. *)
Theorem register_twice_overwrites (w : world) (n v : string)
    (t1 p1 ty1 : string) (ms1 : dict Q) (md1 : option (dict value))
    (t2 p2 ty2 : string) (ms2 : dict Q) (md2 : option (dict value)) :
  v <> "latest" ->
  let w1 := snd (register_model t1 n v p1 ty1 ms1 md1 w) in
  let w2 := snd (register_model t2 n v p2 ty2 ms2 md2 w1) in
  get_model_info n v w2 = (Returned (Some (model_info t2 n v p2 ty2 ms2 md2)), w2) /\
  registered_at (model_info t2 n v p2 ty2 ms2 md2) = t2 /\
  metrics (model_info t2 n v p2 ty2 ms2 md2) = ms2 /\
  dict_keys (registry w2) = dict_keys (registry w1) /\
  (writable w = true ->
   fst (register_model t1 n v p1 ty1 ms1 md1 w) = Returned tt /\
   fst (register_model t2 n v p2 ty2 ms2 md2 w1) = Returned tt /\
   document w2 = Some (registry w2)).
Proof.
  intros Hv w1 w2.
  assert (H1 : registry w1 =
               dict_set (model_key n v) (model_info t1 n v p1 ty1 ms1 md1) (registry w))
    by apply register_model_registry.
  assert (H2 : registry w2 =
               dict_set (model_key n v) (model_info t2 n v p2 ty2 ms2 md2) (registry w1))
    by apply register_model_registry.
  split.
  { rewrite get_model_info_exact by assumption.
    rewrite H2, dict_get_set_same. reflexivity. }
  split; [reflexivity|]. split; [reflexivity|].
  split.
  { rewrite H2. apply dict_keys_set_present. rewrite H1. apply dict_mem_set. }
  intros Hw.
  split; [now apply register_model_returns|].
  assert (Hw1 : writable w1 = true)
    by (unfold w1; now rewrite register_model_writable).
  split; now apply register_model_returns.
Qed.

Lemma register_twice_overwrites_witness :
  let w1 := snd (register_model "2024-02-01T00:00:00" "m" "v1" "a.pth" "detection"
                   [("accuracy", (1 # 2)%Q)] None holding_m_v1) in
  let w2 := snd (register_model "2024-02-02T00:00:00" "m" "v1" "b.pth" "detection"
                   [("accuracy", (9 # 10)%Q)] (Some [("optimizer", VStr "AdamW")]) w1) in
  get_model_info "m" "v1" w2 =
  (Returned (Some (model_info "2024-02-02T00:00:00" "m" "v1" "b.pth" "detection"
                     [("accuracy", (9 # 10)%Q)] (Some [("optimizer", VStr "AdamW")]))), w2).
Proof.
  refine (proj1 (register_twice_overwrites holding_m_v1 "m" "v1"
                   "2024-02-01T00:00:00" "a.pth" "detection" [("accuracy", (1 # 2)%Q)] None
                   "2024-02-02T00:00:00" "b.pth" "detection" [("accuracy", (9 # 10)%Q)]
                   (Some [("optimizer", VStr "AdamW")]) _)).
  discriminate.
Defined.

(** C7 as stated fails for the version ["latest"]: on a registry that already
    holds [m:v2] with a later [registered_at], registering [("m", "latest")]
    twice and asking for [("m", "latest")] returns the record of [v2], not the
    one of the second call. *)
Lemma register_twice_overwrites_counterexample :
  let w := snd (__init__ (Some [("m:v2", m_v2_from_elsewhere)]) true []) in
  let w1 := snd (register_model "2024-02-01T00:00:00" "m" "latest" "a.pth" "detection"
                   [("accuracy", (1 # 2)%Q)] None w) in
  let w2 := snd (register_model "2024-02-02T00:00:00" "m" "latest" "b.pth" "detection"
                   [("accuracy", (9 # 10)%Q)] None w1) in
  fst (get_model_info "m" "latest" w2) = Returned (Some m_v2_from_elsewhere) /\
  fst (get_model_info "m" "latest" w2) <>
  Returned (Some (model_info "2024-02-02T00:00:00" "m" "latest" "b.pth" "detection"
                    [("accuracy", (9 # 10)%Q)] None)).
Proof.
  cbv zeta. split; [reflexivity|].
  intros H. vm_compute in H. discriminate H.
Qed.

End RegistryClaims.

(** ** The polling loop *)

Section Polling.

Import HealthChecker.

Local Open Scope py_scope.

Lemma check_eqb_refl (c : check) : check_eqb c c = true.
Proof. destruct c; reflexivity. Qed.

Lemma invocations_app (c : check) (t1 t2 : list event) :
  invocations c (t1 ++ t2) = invocations c t1 + invocations c t2.
Proof.
  induction t1 as [|[c' b|l|z] t1 IH]; simpl; auto.
  destruct (check_eqb c c'); simpl; auto.
Qed.

Lemma sleeps_app (t1 t2 : list event) : sleeps (t1 ++ t2) = sleeps t1 + sleeps t2.
Proof.
  induction t1 as [|[c' b|l|z] t1 IH]; simpl; auto.
Qed.

Lemma slept_app (t1 t2 : list event) : (slept (t1 ++ t2) = slept t1 + slept t2)%Z.
Proof.
  induction t1 as [|[c' b|l|z] t1 IH]; simpl; auto. lia.
Qed.

Variables (service_type : string) (c : check) (max_retries : nat) (retry_delay : Z).

Hypothesis known : dict_get service_type checks = Some c.

(** One pass through the loop body when the check fails. *)
Lemma retry_loop_failed_pass (attempt : nat) (range : list nat) (w : world) :
  answers w c (invocations c (trace w)) = false ->
  retry_loop service_type max_retries retry_delay (attempt :: range) w =
  retry_loop service_type max_retries retry_delay range
    {| answers := answers w;
       trace := trace w
                  ++ failed_rounds c service_type max_retries retry_delay [attempt] |}.
Proof.
  intros Hf. cbn [retry_loop].
  unfold bind at 1, lift, subscript. rewrite known.
  unfold bind at 1, call. rewrite Hf.
  unfold bind, print, sleep, log. cbn [trace answers].
  unfold failed_rounds, failed_round. cbn [flat_map]. rewrite app_nil_r.
  rewrite <- !app_assoc. reflexivity.
Qed.

(** One pass through the loop body when the check succeeds. *)
Lemma retry_loop_passed_pass (attempt : nat) (range : list nat) (w : world) :
  answers w c (invocations c (trace w)) = true ->
  retry_loop service_type max_retries retry_delay (attempt :: range) w =
  (Returned true,
   {| answers := answers w; trace := trace w ++ passed_round c service_type |}).
Proof.
  intros Hf. cbn [retry_loop].
  unfold bind at 1, lift, subscript. rewrite known.
  unfold bind at 1, call. rewrite Hf.
  unfold bind, print, log, ret. cbn [trace answers].
  unfold passed_round. rewrite <- !app_assoc. reflexivity.
Qed.

Lemma invocations_rounds (l : list nat) :
  invocations c (failed_rounds c service_type max_retries retry_delay l) = length l.
Proof.
  induction l as [|a l IH]; [reflexivity|].
  unfold failed_rounds in *. cbn [flat_map]. rewrite invocations_app, IH.
  simpl. now rewrite check_eqb_refl.
Qed.

Lemma sleeps_rounds (l : list nat) :
  sleeps (failed_rounds c service_type max_retries retry_delay l) = length l.
Proof.
  induction l as [|a l IH]; [reflexivity|].
  unfold failed_rounds in *. cbn [flat_map]. rewrite sleeps_app, IH. reflexivity.
Qed.

Lemma slept_rounds (l : list nat) :
  (slept (failed_rounds c service_type max_retries retry_delay l)
   = Z.of_nat (length l) * retry_delay)%Z.
Proof.
  induction l as [|a l IH]; [reflexivity|].
  unfold failed_rounds in *. cbn [flat_map]. rewrite slept_app, IH.
  cbn [failed_round slept length]. lia.
Qed.

(** The loop when the first [k] answers are [False] and the next is [True]. *)
Lemma retry_loop_first_true (k : nat) :
  forall (range : list nat) (w : world),
  k < length range ->
  (forall i, i < k -> answers w c (invocations c (trace w) + i) = false) ->
  answers w c (invocations c (trace w) + k) = true ->
  retry_loop service_type max_retries retry_delay range w =
  (Returned true,
   {| answers := answers w;
      trace := trace w
                 ++ failed_rounds c service_type max_retries retry_delay (firstn k range)
                 ++ passed_round c service_type |}).
Proof.
  induction k as [|k IH]; intros [|a range] w Hlen Hfalse Htrue;
    try (simpl in Hlen; lia).
  - rewrite Nat.add_0_r in Htrue.
    now rewrite retry_loop_passed_pass.
  - rewrite retry_loop_failed_pass.
    2:{ specialize (Hfalse 0). rewrite Nat.add_0_r in Hfalse. apply Hfalse. lia. }
    assert (Hinv : invocations c (trace w ++ failed_rounds c service_type max_retries
                                               retry_delay [a])
                   = S (invocations c (trace w))).
    { rewrite invocations_app, invocations_rounds. simpl. lia. }
    rewrite IH; cbn [answers trace].
    + unfold failed_rounds. cbn [firstn flat_map]. rewrite app_nil_r.
      rewrite <- !app_assoc. reflexivity.
    + simpl in Hlen. lia.
    + intros i Hi. rewrite Hinv.
      replace (S (invocations c (trace w)) + i) with (invocations c (trace w) + S i)
        by lia.
      apply Hfalse. lia.
    + rewrite Hinv.
      replace (S (invocations c (trace w)) + k) with (invocations c (trace w) + S k)
        by lia.
      exact Htrue.
Qed.

(** The loop when every answer is [False]. *)
Lemma retry_loop_all_false :
  forall (range : list nat) (w : world),
  (forall i, i < length range ->
             answers w c (invocations c (trace w) + i) = false) ->
  retry_loop service_type max_retries retry_delay range w =
  (Returned false,
   {| answers := answers w;
      trace := trace w ++ failed_rounds c service_type max_retries retry_delay range |}).
Proof.
  induction range as [|a range IH]; intros w Hfalse.
  - simpl. rewrite app_nil_r. destruct w; reflexivity.
  - rewrite retry_loop_failed_pass.
    2:{ specialize (Hfalse 0). rewrite Nat.add_0_r in Hfalse.
        apply Hfalse. simpl. lia. }
    assert (Hinv : invocations c (trace w ++ failed_rounds c service_type max_retries
                                               retry_delay [a])
                   = S (invocations c (trace w))).
    { rewrite invocations_app, invocations_rounds. simpl. lia. }
    rewrite IH; cbn [answers trace].
    + unfold failed_rounds. cbn [flat_map]. rewrite app_nil_r.
      rewrite <- !app_assoc. reflexivity.
    + intros i Hi. rewrite Hinv.
      replace (S (invocations c (trace w)) + i) with (invocations c (trace w) + S i)
        by lia.
      apply Hfalse. simpl. lia.
Qed.

Lemma run_known (w : world) :
  run_health_check_with max_retries retry_delay service_type w =
  retry_loop service_type max_retries retry_delay (seq 0 max_retries) w.
Proof.
  unfold run_health_check_with, dict_mem. now rewrite known.
Qed.

End Polling.

(** ** The health check's verdict and exit code *)

Section HealthClaims.

Import HealthChecker.

Local Open Scope py_scope.

Lemma firstn_range (k : nat) : forall a n, k <= n -> firstn k (seq a n) = seq a k.
Proof.
  induction k as [|k IH]; intros a [|n] Hk; simpl; try reflexivity; try lia.
  rewrite IH by lia. reflexivity.
Qed.

(** The loop never raises: with a known service it returns [True] or [False]. *)
Lemma retry_loop_returns (s : string) (c : check) (m : nat) (d : Z) :
  dict_get s checks = Some c ->
  forall (range : list nat) (w : world),
  exists b w', retry_loop s m d range w = (Returned b, w').
Proof.
  intros Hc. induction range as [|a range IH]; intros w.
  - simpl. unfold ret. eauto.
  - destruct (answers w c (invocations c (trace w))) eqn:E.
    + rewrite (retry_loop_passed_pass s c m d Hc) by assumption. eauto.
    + rewrite (retry_loop_failed_pass s c m d Hc) by assumption. apply IH.
Qed.

Lemma run_health_check_returns (s : string) (w : world) :
  exists b w', run_health_check s w = (Returned b, w').
Proof.
  unfold run_health_check.
  destruct (dict_get s checks) as [c|] eqn:Hc.
  - rewrite (run_known s c 30 2 Hc). now apply retry_loop_returns with c.
  - unfold run_health_check_with, dict_mem. rewrite Hc. simpl.
    unfold bind, print, log, ret. eauto.
Qed.




(** C6, as the code has it.  [time.sleep(retry_delay)] follows every failed
    attempt, the last one included, and never a successful one.  When the
    check answers [False] on all [max_retries] attempts the run sleeps exactly
    [max_retries] times, for [max_retries * retry_delay] in all, and a sleep is
    the last thing it does; when the first [True] comes at attempt [k + 1] the
    run sleeps exactly [k] times, all before that call. *)
Theorem sleeps_after_every_failure (s : string) (c : check) (f : check -> nat -> bool)
    (max_retries : nat) (retry_delay : Z) :
  dict_get s checks = Some c ->
  ((forall i, i < max_retries -> f c i = false) ->
   let run := run_health_check_with max_retries retry_delay s (fresh f) in
   fst run = Returned false /\
   trace (snd run) = failed_rounds c s max_retries retry_delay (seq 0 max_retries) /\
   invocations c (trace (snd run)) = max_retries /\
   sleeps (trace (snd run)) = max_retries /\
   slept (trace (snd run)) = (Z.of_nat max_retries * retry_delay)%Z /\
   (0 < max_retries -> last (trace (snd run)) (Printed "") = Slept retry_delay)) /\
  (forall k,
     k < max_retries -> (forall i, i < k -> f c i = false) -> f c k = true ->
     let run := run_health_check_with max_retries retry_delay s (fresh f) in
     fst run = Returned true /\
     trace (snd run) =
     failed_rounds c s max_retries retry_delay (seq 0 k) ++ passed_round c s /\
     invocations c (trace (snd run)) = S k /\
     sleeps (trace (snd run)) = k /\
     slept (trace (snd run)) = (Z.of_nat k * retry_delay)%Z).
Proof.
  intros Hc. split.
  - intros Hf run. unfold run.
    rewrite (run_known s c max_retries retry_delay Hc).
    rewrite (retry_loop_all_false s c max_retries retry_delay Hc)
      by (intros i Hi; rewrite length_seq in Hi; now apply Hf).
    cbn [fst snd trace fresh app].
    rewrite (invocations_rounds s c), (sleeps_rounds s c), (slept_rounds s c),
      length_seq.
    repeat split; try reflexivity.
    intros Hpos. destruct max_retries as [|m]; [lia|].
    rewrite seq_S. unfold failed_rounds. rewrite flat_map_app.
    cbn [flat_map]. rewrite app_nil_r. unfold failed_round at 2.
    match goal with
    | |- last (?l ++ [?a; ?b; ?e]) _ = _ =>
        replace (l ++ [a; b; e]) with ((l ++ [a; b]) ++ [e])
          by (rewrite <- app_assoc; reflexivity)
    end.
    apply last_last.
  - intros k Hk Hf Ht run. unfold run.
    rewrite (run_known s c max_retries retry_delay Hc).
    rewrite (retry_loop_first_true s c max_retries retry_delay Hc k);
      try (rewrite length_seq); auto.
    cbn [fst snd trace fresh app].
    rewrite firstn_range by lia.
    rewrite invocations_app, sleeps_app, slept_app.
    rewrite (invocations_rounds s c), (sleeps_rounds s c), (slept_rounds s c),
      length_seq.
    simpl. rewrite check_eqb_refl.
    repeat split; try reflexivity; lia.
Qed.

Lemma sleeps_after_every_failure_witness :
  let run := run_health_check_with 3 2 "database" (fresh (fun _ _ => false)) in
  fst run = Returned false /\
  trace (snd run) = failed_rounds check_database_health "database" 3 2 (seq 0 3) /\
  invocations check_database_health (trace (snd run)) = 3 /\
  sleeps (trace (snd run)) = 3 /\
  slept (trace (snd run)) = (Z.of_nat 3 * 2)%Z /\
  (0 < 3 -> last (trace (snd run)) (Printed "") = Slept 2).
Proof.
  apply (proj1 (sleeps_after_every_failure "database" check_database_health
                  (fun _ _ => false) 3 2 eq_refl)).
  reflexivity.
Defined.

(** C6 as stated fails: [run_health_check] on a check that never succeeds
    sleeps 30 times, not 29, and spends 60 seconds asleep, more than
    [(30 - 1) * 2]; the last thing it does is sleep. *)
Lemma sleeps_after_every_failure_counterexample :
  let run := run_health_check "api" (fresh (fun _ _ => false)) in
  fst run = Returned false /\
  invocations check_api_health (trace (snd run)) = 30 /\
  sleeps (trace (snd run)) = 30 /\
  sleeps (trace (snd run)) <> 30 - 1 /\
  slept (trace (snd run)) = 60%Z /\
  (slept (trace (snd run)) > (Z.of_nat 30 - 1) * 2)%Z /\
  last (trace (snd run)) (Printed "") = Slept 2.
Proof.
  vm_compute. repeat split; try reflexivity. discriminate.
Qed.

Lemma main_follows_run (prog s : string) (w : world) (b : bool) :
  fst (run_health_check s w) = Returned b ->
  fst (main [prog; s] w) = Returned (if b then 0%Z else 1%Z).
Proof.
  intros H. unfold main. cbn [length Nat.eqb negb nth]. unfold bind.
  destruct (run_health_check s w) as [[b'|e] w']; simpl in H; [|discriminate].
  inversion H; subst b'. destruct b; reflexivity.
Qed.

(** C8.  Called with one argument, the script exits with 0 when
    [run_health_check] returns [True] (Passed) and with 1 when it returns
    [False] (Failed); one of the two always happens.  An argument other than
    [api], [database], [redis], [models] makes [run_health_check] return
    [False] without calling any check, so the exit code is 1.  For a known
    name the code is 0 as soon as one of the 30 attempts succeeds and 1 when
    all 30 fail. *)
Theorem exit_codes (prog s : string) (w : world) :
  (fst (run_health_check s w) = Returned true ->
   fst (main [prog; s] w) = Returned 0%Z) /\
  (fst (run_health_check s w) = Returned false ->
   fst (main [prog; s] w) = Returned 1%Z) /\
  (fst (run_health_check s w) = Returned true \/
   fst (run_health_check s w) = Returned false) /\
  (s <> "api" -> s <> "database" -> s <> "redis" -> s <> "models" ->
   fst (run_health_check s w) = Returned false /\
   fst (main [prog; s] w) = Returned 1%Z /\
   trace (snd (main [prog; s] w)) =
   trace w ++ [Printed ("Unknown service type: " ++ s);
               Printed ("Health check failed for " ++ s)]) /\
  (forall c f k,
     dict_get s checks = Some c ->
     k < 30 -> (forall i, i < k -> f c i = false) -> f c k = true ->
     fst (main [prog; s] (fresh f)) = Returned 0%Z) /\
  (forall c f,
     dict_get s checks = Some c ->
     (forall i, i < 30 -> f c i = false) ->
     fst (main [prog; s] (fresh f)) = Returned 1%Z).
Proof.
  split; [apply (main_follows_run prog s w true)|].
  split; [apply (main_follows_run prog s w false)|].
  split.
  { destruct (run_health_check_returns s w) as (b & w' & E).
    rewrite E. destruct b; auto. }
  split.
  { intros Ha Hd Hr Hm.
    apply String.eqb_neq in Ha, Hd, Hr, Hm.
    assert (Hrun : run_health_check s w =
                   (Returned false,
                    {| answers := answers w;
                       trace := trace w ++ [Printed ("Unknown service type: " ++ s)] |})).
    { unfold run_health_check, run_health_check_with, dict_mem, checks.
      cbn [dict_get]. rewrite Ha, Hd, Hr, Hm. reflexivity. }
    split; [now rewrite Hrun|].
    split; [apply (main_follows_run prog s w false); now rewrite Hrun|].
    unfold main. cbn [length Nat.eqb negb nth]. unfold bind at 1.
    rewrite Hrun. unfold bind, print, log, ret. cbn [answers trace snd].
    now rewrite <- app_assoc. }
  split.
  - intros c f k Hc Hk Hf Ht.
    apply (main_follows_run prog s (fresh f) true).
    unfold run_health_check. rewrite (run_known s c 30 2 Hc).
    rewrite (retry_loop_first_true s c 30 2 Hc k);
      try (rewrite length_seq); auto.
  - intros c f Hc Hf.
    apply (main_follows_run prog s (fresh f) false).
    unfold run_health_check. rewrite (run_known s c 30 2 Hc).
    rewrite (retry_loop_all_false s c 30 2 Hc); [reflexivity|].
    intros i Hi. rewrite length_seq in Hi. now apply Hf.
Qed.

Lemma exit_codes_witness :
  fst (main ["health_check.py"; "redis"] (fresh (fun _ i => Nat.eqb i 4))) = Returned 0%Z /\
  fst (main ["health_check.py"; "models"] (fresh (fun _ _ => false))) = Returned 1%Z /\
  fst (main ["health_check.py"; "cache"] (fresh (fun _ _ => true))) = Returned 1%Z.
Proof.
  split; [|split].
  - apply (proj1 (proj2 (proj2 (proj2 (proj2
             (exit_codes "health_check.py" "redis" (fresh (fun _ _ => false)))))))
             check_redis_health (fun _ i => Nat.eqb i 4) 4 eq_refl).
    + lia.
    + intros i Hi. destruct i as [|[|[|[|i]]]]; try reflexivity; lia.
    + reflexivity.
  - apply (proj2 (proj2 (proj2 (proj2 (proj2
             (exit_codes "health_check.py" "models" (fresh (fun _ _ => false)))))))
             check_models_health (fun _ _ => false) eq_refl).
    reflexivity.
  - apply (proj1 (proj2 (proj2 (proj2
             (exit_codes "health_check.py" "cache" (fresh (fun _ _ => true)))))));
      discriminate.
Defined.

End HealthClaims.

(** ** More on the registry: resolution, frames and persistence *)

Section RegistryResolution.

Local Open Scope py_scope.

Lemma append_assoc_colon (n v : string) :
  (n ++ ":" ++ v)%string = ((n ++ ":") ++ v)%string.
Proof.
  induction n as [|a n IH]; [reflexivity|].
  change (String a (n ++ ":" ++ v) = String a ((n ++ ":") ++ v))%string.
  now rewrite IH.
Qed.

Lemma model_key_startswith (n v : string) :
  startswith (model_key n v) (n ++ ":") = true.
Proof.
  unfold model_key. rewrite append_assoc_colon. apply startswith_append.
Qed.

Lemma resolve_latest_in (d : dict ModelRecord) (n k : string) :
  resolve_latest d n = Some k ->
  In k (dict_keys d) /\ startswith k (n ++ ":") = true.
Proof.
  unfold resolve_latest.
  destruct (filter _ (dict_keys d)) as [|k0 ks] eqn:Hf; [discriminate|].
  intros E. injection E as Hk.
  destruct (max_loop_spec (map (fun k => (k, stamp d k)) ks) k0 (stamp d k0))
    as (km & Hin & _).
  rewrite Hk in Hin.
  change ((k0, stamp d k0) :: map (fun k => (k, stamp d k)) ks)
    with (map (fun k => (k, stamp d k)) (k0 :: ks)) in Hin.
  apply in_map_iff in Hin. destruct Hin as (k1 & E & Hk1).
  inversion E; subst k1.
  rewrite <- Hf in Hk1. now apply filter_In in Hk1.
Qed.

(** The ["latest"] branch returns the record under [resolve_latest]. *)
Lemma get_model_info_latest (w : world) (n : string) :
  get_model_info n "latest" w =
  (Returned match resolve_latest (registry w) n with
            | Some k => dict_get k (registry w)
            | None => None
            end, w).
Proof.
  destruct (resolve_latest (registry w) n) as [k|] eqn:Hres.
  - destruct (resolve_latest_in _ _ _ Hres) as [Hin _].
    destruct (keys_dict_get _ _ Hin) as [r Hr]. rewrite Hr.
    revert Hres.
    unfold get_model_info, resolve_latest. rewrite String.eqb_refl.
    unfold bind, get_registry, ret, lift. cbv beta iota.
    destruct (filter _ (dict_keys (registry w))) as [|k0 ks] eqn:Hf; [discriminate|].
    intros E. injection E as Hk.
    assert (Hsub : forall k', In k' (k0 :: ks) -> In k' (dict_keys (registry w))).
    { intros k' Hk'. rewrite <- Hf in Hk'. now apply filter_In in Hk'. }
    destruct (keys_dict_get k0 (registry w)) as [r0 Hr0]; [apply Hsub; now left|].
    unfold subscript at 1. rewrite Hr0.
    rewrite registered_keys_total by (intros k' Hk'; apply Hsub; now right).
    cbv beta iota.
    replace (registered_at r0) with (stamp (registry w) k0)
      by (unfold stamp; now rewrite Hr0).
    rewrite Hk. unfold subscript. now rewrite Hr.
  - revert Hres.
    unfold get_model_info, resolve_latest. rewrite String.eqb_refl.
    unfold bind, get_registry, ret, lift. cbv beta iota.
    destruct (filter _ (dict_keys (registry w))); [reflexivity|discriminate].
Qed.

Lemma dict_keys_set_absent {V : Type} (k : string) (v : V) (d : dict V) :
  dict_mem k d = false -> dict_keys (dict_set k v d) = dict_keys d ++ [k].
Proof.
  unfold dict_mem.
  induction d as [|[k' v'] d IH]; simpl; [reflexivity|].
  destruct (String.eqb k k') eqn:E; [discriminate|].
  intros H. simpl. now rewrite IH.
Qed.

(** X2.  [register_model] touches one key only: every other key keeps its
    record, the keys that were there keep their order, and the key is added at
    the end when it is new and stays where it was when it is overwritten. *)
Theorem register_model_frame (w : world) (now n v path ty : string)
    (ms : dict Q) (md : option (dict value)) :
  let w' := snd (register_model now n v path ty ms md w) in
  dict_get (model_key n v) (registry w') = Some (model_info now n v path ty ms md) /\
  (forall k, k <> model_key n v ->
             dict_get k (registry w') = dict_get k (registry w)) /\
  dict_keys (registry w') =
  (if dict_mem (model_key n v) (registry w) then dict_keys (registry w)
   else dict_keys (registry w) ++ [model_key n v]).
Proof.
  intros w'. unfold w'. rewrite register_model_registry.
  split; [apply dict_get_set_same|].
  split; [intros k Hk; now apply dict_get_set_other|].
  destruct (dict_mem (model_key n v) (registry w)) eqn:E.
  - now apply dict_keys_set_present.
  - now apply dict_keys_set_absent.
Qed.

Lemma update_model_status_registry (w : world) (n v s : string) :
  registry (snd (update_model_status n v s w)) =
  match dict_get (model_key n v) (registry w) with
  | Some r => dict_set (model_key n v) (set_status r s) (registry w)
  | None => registry w
  end.
Proof.
  unfold update_model_status, bind, get_registry, dict_mem, lift, subscript,
    put_registry, _save_registry, write_json, ret.
  destruct (dict_get (model_key n v) (registry w)); simpl; [|reflexivity].
  destruct (writable w); reflexivity.
Qed.

Lemma init_registry (doc : option (dict ModelRecord)) (can_write : bool)
    (out : list string) :
  __init__ doc can_write out =
  (Returned tt,
   {| registry := match doc with Some d => d | None => [] end;
      document := doc; writable := can_write; stdout := out |}).
Proof. destruct doc; reflexivity. Qed.



End RegistryResolution.

(** ** Status updates, ties and keys *)

Section RegistryKeys.

Local Open Scope py_scope.

Lemma stamp_set_status (d : dict ModelRecord) (k0 : string) (r : ModelRecord)
    (s : string) :
  dict_get k0 d = Some r ->
  forall k, stamp (dict_set k0 (set_status r s) d) k = stamp d k.
Proof.
  intros Hr k. unfold stamp.
  destruct (string_dec k k0) as [->|Hne].
  - now rewrite dict_get_set_same, Hr.
  - now rewrite dict_get_set_other.
Qed.

Lemma resolve_latest_set_status (d : dict ModelRecord) (k0 : string)
    (r : ModelRecord) (s n : string) :
  dict_get k0 d = Some r ->
  resolve_latest (dict_set k0 (set_status r s) d) n = resolve_latest d n.
Proof.
  intros Hr. unfold resolve_latest.
  rewrite dict_keys_set_present by (unfold dict_mem; now rewrite Hr).
  destruct (filter _ (dict_keys d)) as [|k1 ks]; [reflexivity|].
  rewrite stamp_set_status by assumption.
  f_equal. f_equal. apply map_ext. intros k.
  now rewrite stamp_set_status.
Qed.

(** X5.  A status update never changes which version is the latest one: for
    every name, ["latest"] resolves to the same key before and after
    [update_model_status], and the record returned is the same apart from its
    status. *)
Theorem status_update_keeps_latest (w : world) (n v s n' : string) :
  let w' := snd (update_model_status n v s w) in
  resolve_latest (registry w') n' = resolve_latest (registry w) n' /\
  exists res res',
    get_model_info n' "latest" w = (Returned res, w) /\
    get_model_info n' "latest" w' = (Returned res', w') /\
    option_map without_status res' = option_map without_status res.
Proof.
  intros w'.
  assert (Hreg := update_model_status_registry w n v s). fold w' in Hreg.
  rewrite !get_model_info_latest. rewrite Hreg.
  destruct (dict_get (model_key n v) (registry w)) as [r|] eqn:Hr.
  - rewrite resolve_latest_set_status by assumption.
    split; [reflexivity|].
    eexists. eexists. split; [reflexivity|]. split; [reflexivity|].
    destruct (resolve_latest (registry w) n') as [k|]; [|reflexivity].
    destruct (string_dec k (model_key n v)) as [->|Hne].
    + rewrite dict_get_set_same, Hr. reflexivity.
    + now rewrite dict_get_set_other.
  - split; [reflexivity|].
    eexists. eexists. split; [reflexivity|]. split; reflexivity.
Qed.

Lemma dict_get_none_set {V : Type} (k : string) (v : V) (d : dict V) :
  dict_get k d = None -> dict_set k v d = d ++ [(k, v)].
Proof.
  induction d as [|[k' v'] d IH]; simpl; [reflexivity|].
  destruct (String.eqb k k'); [discriminate|].
  intros H. now rewrite IH.
Qed.

Lemma dict_get_absent_key {V : Type} (k : string) (d : dict V) :
  ~ In k (dict_keys d) -> dict_get k d = None.
Proof.
  intros Hn. destruct (dict_get k d) eqn:E; [|reflexivity].
  exfalso. apply Hn. eapply dict_get_keys; eauto.
Qed.

Lemma filter_none {A : Type} (p : A -> bool) (l : list A) :
  (forall x, In x l -> p x = false) -> filter p l = [].
Proof.
  induction l as [|a l IH]; intros H; simpl; [reflexivity|].
  rewrite (H a) by now left. apply IH. intros x Hx. apply H. now right.
Qed.

Lemma model_key_same_name (n v1 v2 : string) :
  model_key n v1 = model_key n v2 -> v1 = v2.
Proof.
  unfold model_key. induction n as [|a n IH]; simpl; intros H.
  - now inversion H.
  - inversion H. auto.
Qed.

(** X6.  Ties go to the version registered first: when a registry without any
    version of [name] receives [v1] at [t1] and then another version [v2] at a
    time [t2] that is not later than [t1] (equal, or the clock went back),
    ["latest"] still resolves to [v1]. *)
Theorem first_registered_wins_ties (w : world) (n : string)
    (t1 v1 p1 ty1 : string) (ms1 : dict Q) (md1 : option (dict value))
    (t2 v2 p2 ty2 : string) (ms2 : dict Q) (md2 : option (dict value)) :
  (forall k, In k (dict_keys (registry w)) -> startswith k (n ++ ":") = false) ->
  v1 <> v2 ->
  String.ltb t1 t2 = false ->
  let w1 := snd (register_model t1 n v1 p1 ty1 ms1 md1 w) in
  let w2 := snd (register_model t2 n v2 p2 ty2 ms2 md2 w1) in
  get_model_info n "latest" w2 =
  (Returned (Some (model_info t1 n v1 p1 ty1 ms1 md1)), w2).
Proof.
  intros Hnone Hv Hlt w1 w2.
  set (k1 := model_key n v1). set (k2 := model_key n v2).
  set (r1 := model_info t1 n v1 p1 ty1 ms1 md1).
  set (r2 := model_info t2 n v2 p2 ty2 ms2 md2).
  set (d := registry w).
  assert (Hk : k1 <> k2) by (intros E; apply Hv; now apply model_key_same_name with n).
  assert (Habs : forall v, dict_get (model_key n v) d = None).
  { intros v. apply dict_get_absent_key. intros Hin.
    apply Hnone in Hin. now rewrite model_key_startswith in Hin. }
  assert (H1 : registry w1 = d ++ [(k1, r1)]).
  { unfold w1. rewrite register_model_registry. apply dict_get_none_set, Habs. }
  assert (H2 : registry w2 = d ++ [(k1, r1); (k2, r2)]).
  { unfold w2. rewrite register_model_registry, H1.
    fold k2 r2. rewrite dict_get_none_set.
    - now rewrite <- app_assoc.
    - rewrite <- (dict_get_none_set k1 r1 d) by apply Habs.
      rewrite dict_get_set_other by congruence. apply Habs. }
  assert (Hg1 : dict_get k1 (registry w2) = Some r1).
  { unfold w2. rewrite register_model_registry. fold k2 r2.
    rewrite dict_get_set_other by assumption.
    unfold w1. rewrite register_model_registry. apply dict_get_set_same. }
  assert (Hg2 : dict_get k2 (registry w2) = Some r2).
  { unfold w2. rewrite register_model_registry. apply dict_get_set_same. }
  rewrite get_model_info_latest.
  assert (Hres : resolve_latest (registry w2) n = Some k1).
  { unfold resolve_latest, dict_keys. rewrite H2, map_app, filter_app.
    rewrite (filter_none _ (map fst d)) by exact Hnone.
    cbn [map fst filter app].
    unfold k1, k2. rewrite !model_key_startswith. fold k1 k2.
    cbn [map max_loop]. unfold stamp. rewrite <- H2, Hg1, Hg2.
    cbn [registered_at r1 r2 model_info]. now rewrite Hlt. }
  now rewrite Hres, Hg1.
Qed.

Lemma first_registered_wins_ties_witness :
  let w1 := snd (register_model "2024-01-01T10:00:00" "m" "v1" "a.pth" "classification"
                   [("accuracy", (80 # 100)%Q)] None just_constructed) in
  let w2 := snd (register_model "2024-01-01T10:00:00" "m" "v2" "b.pth" "classification"
                   [("accuracy", (90 # 100)%Q)] None w1) in
  get_model_info "m" "latest" w2 =
  (Returned (Some (model_info "2024-01-01T10:00:00" "m" "v1" "a.pth" "classification"
                     [("accuracy", (80 # 100)%Q)] None)), w2).
Proof.
  apply (first_registered_wins_ties just_constructed "m").
  - intros k [].
  - discriminate.
  - reflexivity.
Defined.

Lemma has_colon_append (x v : string) : has_colon (x ++ ":" ++ v) = true.
Proof.
  induction x as [|a x IH]; [reflexivity|].
  change (has_colon (String a (x ++ ":" ++ v)) = true).
  simpl has_colon at 1. destruct (Ascii.eqb a ":"); [reflexivity|exact IH].
Qed.

(** X7.  The key does not tell a colon in the name from one in the version:
    [(n, "x:v")] and [("n:x", v)] have the same key, so registering the second
    replaces the first, and a lookup of the first pair then returns the
    record of the second. *)
Theorem colon_makes_keys_collide (w : world) (n x v : string)
    (t1 p1 ty1 : string) (ms1 : dict Q) (md1 : option (dict value))
    (t2 p2 ty2 : string) (ms2 : dict Q) (md2 : option (dict value)) :
  let w1 := snd (register_model t1 n (x ++ ":" ++ v) p1 ty1 ms1 md1 w) in
  let w2 := snd (register_model t2 (n ++ ":" ++ x) v p2 ty2 ms2 md2 w1) in
  model_key n (x ++ ":" ++ v) = model_key (n ++ ":" ++ x) v /\
  dict_keys (registry w2) = dict_keys (registry w1) /\
  get_model_info n (x ++ ":" ++ v) w2 =
  (Returned (Some (model_info t2 (n ++ ":" ++ x) v p2 ty2 ms2 md2)), w2).
Proof.
  intros w1 w2.
  assert (Hkey : model_key n (x ++ ":" ++ v) = model_key (n ++ ":" ++ x) v).
  { unfold model_key. clear. induction n as [|a n IH]; [reflexivity|].
    change (String a (n ++ ":" ++ x ++ ":" ++ v) =
            String a ((n ++ ":" ++ x) ++ ":" ++ v))%string.
    now rewrite IH. }
  split; [exact Hkey|].
  assert (H2 : registry w2 =
               dict_set (model_key n (x ++ ":" ++ v))
                 (model_info t2 (n ++ ":" ++ x) v p2 ty2 ms2 md2) (registry w1)).
  { unfold w2. rewrite register_model_registry. now rewrite Hkey. }
  split.
  - rewrite H2. apply dict_keys_set_present.
    unfold w1. rewrite register_model_registry. apply dict_mem_set.
  - rewrite get_model_info_exact.
    + now rewrite H2, dict_get_set_same.
    + intros E. assert (Hc := has_colon_append x v). rewrite E in Hc. discriminate.
Qed.

Lemma key_splits_once (n1 n2 v1 v2 : string) :
  has_colon n1 = false -> has_colon n2 = false ->
  startswith (model_key n2 v2) (n1 ++ ":") = true -> n1 = n2.
Proof.
  unfold startswith, model_key. revert n2.
  induction n1 as [|a n1 IH]; intros [|b n2] H1 H2 Hp;
    cbn [String.prefix String.append] in Hp.
  - reflexivity.
  - exfalso. destruct (ascii_dec ":" b) as [<-|]; [|discriminate].
    simpl in H2. discriminate.
  - exfalso. destruct (ascii_dec a ":") as [->|]; [|discriminate].
    simpl in H1. discriminate.
  - destruct (ascii_dec a b) as [<-|]; [|discriminate].
    simpl in H1, H2. destruct (Ascii.eqb a ":"); [discriminate|].
    f_equal. now apply IH.
Qed.

(** X8.  For names without a colon the key identifies the pair: two pairs
    with the same key have the same name and the same version. *)
Theorem model_key_identifies_pair (n1 v1 n2 v2 : string) :
  has_colon n1 = false -> has_colon n2 = false ->
  model_key n1 v1 = model_key n2 v2 ->
  n1 = n2 /\ v1 = v2.
Proof.
  intros H1 H2 E.
  assert (Hn : n1 = n2).
  { apply (key_splits_once n1 n2 v1 v2 H1 H2).
    rewrite <- E. apply model_key_startswith. }
  subst n2. split; [reflexivity|]. now apply model_key_same_name with n1.
Qed.

Lemma model_key_identifies_pair_witness :
  has_colon "efficientnet_classification" = false /\
  model_key "efficientnet_classification" "v1.0.0" = "efficientnet_classification:v1.0.0" /\
  ("efficientnet_classification" = "efficientnet_classification" /\ "v1.0.0" = "v1.0.0").
Proof.
  split; [reflexivity|]. split; [reflexivity|].
  apply (model_key_identifies_pair "efficientnet_classification" "v1.0.0"
           "efficientnet_classification" "v1.0.0"); reflexivity.
Defined.

(** X9.  The registry's writes keep every record under the key made of its
    own name and version: if that holds before [register_model] or
    [update_model_status] it holds after, and it holds of an object
    constructed without a file. *)
Theorem writes_keep_keys_in_step (w : world) (now n v path ty s : string)
    (ms : dict Q) (md : option (dict value)) :
  keyed_by_identity (registry w) ->
  keyed_by_identity (registry (snd (register_model now n v path ty ms md w))) /\
  keyed_by_identity (registry (snd (update_model_status n v s w))) /\
  (forall can_write out, keyed_by_identity (registry (snd (__init__ None can_write out)))).
Proof.
  intros Hinv. split; [|split].
  - rewrite register_model_registry. intros k r.
    destruct (string_dec k (model_key n v)) as [->|Hne].
    + rewrite dict_get_set_same. intros E. inversion E. reflexivity.
    + rewrite dict_get_set_other by assumption. apply Hinv.
  - rewrite update_model_status_registry.
    destruct (dict_get (model_key n v) (registry w)) as [r0|] eqn:Hr0; [|exact Hinv].
    intros k r.
    destruct (string_dec k (model_key n v)) as [->|Hne].
    + rewrite dict_get_set_same. intros E. inversion E. simpl. now apply Hinv.
    + rewrite dict_get_set_other by assumption. apply Hinv.
  - intros can_write out k r. rewrite init_registry. discriminate.
Qed.

Lemma writes_keep_keys_in_step_witness :
  keyed_by_identity
    (registry (snd (update_model_status "m" "v1" "deprecated" holding_m_v1))).
Proof.
  apply (writes_keep_keys_in_step holding_m_v1 "" "m" "v1" "" "" "deprecated" [] None).
  intros k r. simpl.
  destruct (String.eqb k "m:v1") eqn:E; [|discriminate].
  apply String.eqb_eq in E. intros H. inversion H. subst. reflexivity.
Defined.

(** X10.  When every record sits under its own key and no name has a colon,
    ["latest"] asked for a name without a colon returns a record of that very
    name. *)
Theorem latest_is_of_that_name (w : world) (n : string) (r : ModelRecord) :
  keyed_by_identity (registry w) ->
  colon_free_names (registry w) ->
  has_colon n = false ->
  fst (get_model_info n "latest" w) = Returned (Some r) ->
  name r = n.
Proof.
  intros Hkeys Hnames Hn Hget.
  rewrite get_model_info_latest in Hget. simpl in Hget.
  destruct (resolve_latest (registry w) n) as [k|] eqn:Hres; [|discriminate].
  inversion Hget as [Hr]. clear Hget.
  destruct (resolve_latest_in _ _ _ Hres) as [_ Hp].
  rewrite (Hkeys _ _ Hr) in Hp.
  symmetry. eapply key_splits_once; eauto.
Qed.

Lemma latest_is_of_that_name_witness : name m_v1 = "m".
Proof.
  apply (latest_is_of_that_name holding_m_v1 "m" m_v1).
  - intros k r. simpl.
    destruct (String.eqb k "m:v1") eqn:E; [|discriminate].
    apply String.eqb_eq in E. intros H. inversion H. subst. reflexivity.
  - intros k r. simpl.
    destruct (String.eqb k "m:v1"); [|discriminate].
    intros H. inversion H. reflexivity.
  - reflexivity.
  - reflexivity.
Defined.

(** X18.  A registration whose timestamp is later than that of every record
    stored under another key starting with ["name:"] becomes the latest
    version of the name, whatever else the registry holds and whether or not
    the file could be written. *)
Theorem newest_registration_is_latest (w : world) (now n v path ty : string)
    (ms : dict Q) (md : option (dict value)) :
  (forall k r, startswith k (n ++ ":") = true ->
               dict_get k (registry w) = Some r ->
               k <> model_key n v ->
               String.ltb (registered_at r) now = true) ->
  let w' := snd (register_model now n v path ty ms md w) in
  get_model_info n "latest" w' = (Returned (Some (model_info now n v path ty ms md)), w').
Proof.
  intros Hold w'.
  rewrite (surjective_pairing (get_model_info n "latest" w')).
  rewrite get_model_info_frame. f_equal.
  now apply latest_after_register.
Qed.

Lemma newest_registration_is_latest_witness :
  let w' := snd (register_model "2024-05-05T05:05:05" "m" "v2" "b.pth" "classification"
                   [] None holding_m_v1) in
  get_model_info "m" "latest" w' =
  (Returned (Some (model_info "2024-05-05T05:05:05" "m" "v2" "b.pth" "classification"
                     [] None)), w').
Proof.
  apply (newest_registration_is_latest holding_m_v1 "2024-05-05T05:05:05" "m" "v2").
  intros k r _. simpl.
  destruct (String.eqb k "m:v1"); [|discriminate].
  intros H _. inversion H. reflexivity.
Defined.

End RegistryKeys.

(** ** Loading a registered model *)

Section Loading.

Local Open Scope py_scope.

Context {R : Type} (rt : runtime R).

Lemma nothing_under_prefix (w : world) (n v : string) :
  (forall k, In k (dict_keys (registry w)) -> startswith k (n ++ ":") = false) ->
  get_model_info n v w = (Returned None, w).
Proof.
  intros Hnone.
  destruct (String.eqb v "latest") eqn:E.
  - apply String.eqb_eq in E. subst v. rewrite get_model_info_latest.
    unfold resolve_latest. now rewrite filter_none.
  - apply String.eqb_neq in E. rewrite get_model_info_exact by assumption.
    rewrite dict_get_absent_key; [reflexivity|].
    intros Hin. apply Hnone in Hin. now rewrite model_key_startswith in Hin.
Qed.

(** X11.  When the registry holds no key starting with ["name:"], [load_model]
    raises [ValueError] for every version, ["latest"] included, naming the pair
    it was asked for; the registry, the file and the output are untouched. *)
Theorem load_model_unknown_name (w : world) (n v device : string) :
  (forall k, In k (dict_keys (registry w)) -> startswith k (n ++ ":") = false) ->
  load_model rt n v device w =
  (Returned (inl (ValueError ("Model " ++ n ++ ":" ++ v ++ " not found in registry"))), w).
Proof.
  intros Hnone. unfold load_model, bind.
  now rewrite nothing_under_prefix.
Qed.

(** X12.  [register_model] accepts any path; what [load_model] then does with
    the pair depends on that path alone: [FileNotFoundError] when nothing is
    there, [torch.load] with the caller's device for [.pth], [pickle.load] for
    [.pkl], and [ValueError] naming the suffix otherwise.  The state is left as
    the registration left it. *)
Theorem load_model_after_register (w : world) (now n v path ty device : string)
    (ms : dict Q) (md : option (dict value)) :
  v <> "latest" ->
  let w' := snd (register_model now n v path ty ms md w) in
  load_model rt n v device w' =
  (Returned
     (if negb (exists_ rt path) then
        inl (FileNotFoundError ("Model file not found: " ++ path_str rt path))
      else if String.eqb (suffix rt path) ".pth" then inr (torch_load rt path device)
      else if String.eqb (suffix rt path) ".pkl" then inr (pickle_load rt path)
      else inl (ValueError ("Unsupported model format: " ++ suffix rt path))),
   w').
Proof.
  intros Hv w'. unfold load_model, bind.
  rewrite get_model_info_exact by assumption.
  unfold w' at 1. rewrite register_model_registry, dict_get_set_same.
  cbn [model_path model_info].
  destruct (exists_ rt path); [|reflexivity]. cbn [negb].
  destruct (String.eqb (suffix rt path) ".pth"); [reflexivity|].
  destruct (String.eqb (suffix rt path) ".pkl"); reflexivity.
Qed.

End Loading.

Lemma load_model_unknown_name_witness :
  load_model
    {| path_str := fun p => p; exists_ := fun _ => true; suffix := fun _ => ".pth";
       torch_load := fun p device => (p, device); pickle_load := fun p => (p, "") |}
    "resnet" "latest" "cpu" holding_m_v1 =
  (Returned (inl (ValueError "Model resnet:latest not found in registry")), holding_m_v1).
Proof.
  apply (load_model_unknown_name
           {| path_str := fun p => p; exists_ := fun _ => true; suffix := fun _ => ".pth";
              torch_load := fun p device => (p, device);
              pickle_load := fun p => (p, "") |}
           holding_m_v1 "resnet" "latest" "cpu").
  intros k [<-|[]]. reflexivity.
Defined.

Lemma load_model_after_register_witness :
  let rt := {| path_str := fun p => p; exists_ := fun p => String.eqb p "a.pth";
               suffix := fun _ => ".pth";
               torch_load := fun p device => (p, device);
               pickle_load := fun p => (p, "") |} in
  let w' := snd (register_model "2024-03-01T12:00:00" "m" "v3" "a.pth" "detection"
                   [] None holding_m_v1) in
  load_model rt "m" "v3" "cuda:0" w' = (Returned (inr ("a.pth", "cuda:0")), w').
Proof.
  intros rt.
  apply (load_model_after_register rt holding_m_v1 "2024-03-01T12:00:00" "m" "v3"
           "a.pth" "detection" "cuda:0" [] None).
  discriminate.
Defined.

(** ** The example script *)

Section Script.

Import SampleUsage.

Local Open Scope py_scope.

Lemma for_each_print {A : Type} (f : A -> string) (l : list A) :
  forall w : world,
  for_each l (fun x => ModelRegistry.print (f x)) w =
  (Returned tt,
   {| registry := registry w; document := document w; writable := writable w;
      stdout := stdout w ++ map f l |}).
Proof.
  induction l as [|x l IH]; intros w.
  - simpl. unfold ret. rewrite app_nil_r. destruct w; reflexivity.
  - cbn [for_each]. unfold bind at 1, ModelRegistry.print at 1.
    rewrite IH. cbn [registry document writable stdout map].
    now rewrite <- app_assoc.
Qed.

Lemma dict_set_in {V : Type} (k : string) (v : V) (d : dict V) :
  In (k, v) (dict_set k v d).
Proof.
  induction d as [|[k' v'] d IH]; simpl; [now left|].
  destruct (String.eqb k k') eqn:E.
  - apply String.eqb_eq in E. subst. now left.
  - now right.
Qed.

Lemma register_model_run_saved (w : world) (now n v path ty : string)
    (ms : dict Q) (md : option (dict value)) :
  writable w = true ->
  register_model now n v path ty ms md w =
  (Returned tt,
   {| registry := dict_set (model_key n v) (model_info now n v path ty ms md) (registry w);
      document :=
        Some (dict_set (model_key n v) (model_info now n v path ty ms md) (registry w));
      writable := true;
      stdout := stdout w ++ [("Registered model " ++ model_key n v)%string] |}).
Proof.
  destruct w as [d doc cw out]. simpl. intros ->. reflexivity.
Qed.

Lemma register_model_run_failed (w : world) (now n v path ty : string)
    (ms : dict Q) (md : option (dict value)) :
  writable w = false ->
  register_model now n v path ty ms md w =
  (Raised OSError,
   {| registry := dict_set (model_key n v) (model_info now n v path ty ms md) (registry w);
      document := document w;
      writable := false;
      stdout := stdout w |}).
Proof.
  destruct w as [d doc cw out]. simpl. intros ->. reflexivity.
Qed.

(** X13.  Run when the registry file is absent or holds a mapping of
    complete records, the example script, if its save succeeds, ends with its
    efficientnet record in the registry and has printed the confirmation, the
    heading and one line for every key, in the order of the mapping; the line
    for its own model always reads [classification - active], whatever status
    that key had before.  If the save raises, the script stops there and has
    printed nothing, not even the heading. *)
Theorem script_lists_every_model (now : string) (doc : option (dict ModelRecord)) :
  let d := dict_set "efficientnet_classification:v1.0.0" (efficientnet now)
             match doc with Some d0 => d0 | None => [] end in
  fst (script now doc true) = Returned tt /\
  registry (snd (script now doc true)) = d /\
  stdout (snd (script now doc true)) =
  ["Registered model efficientnet_classification:v1.0.0"; "Registered models:"]
    ++ map (fun item => listing_line (fst item) (snd item)) d /\
  In "  efficientnet_classification:v1.0.0: classification - active"
     (stdout (snd (script now doc true))) /\
  length (stdout (snd (script now doc true))) = 2 + length d /\
  fst (script now doc false) = Raised OSError /\
  stdout (snd (script now doc false)) = [].
Proof.
  intros d.
  assert (Hrun : script now doc true =
                 (Returned tt,
                  {| registry := d; document := Some d; writable := true;
                     stdout := ["Registered model efficientnet_classification:v1.0.0";
                                "Registered models:"]
                               ++ map (fun item => listing_line (fst item) (snd item)) d |})).
  { unfold script. rewrite init_registry. unfold script_body.
    unfold bind at 1. rewrite register_model_run_saved by reflexivity.
    unfold bind at 1, ModelRegistry.print at 1.
    unfold bind at 1, list_models, get_registry.
    cbn [registry document writable stdout app].
    rewrite (for_each_print (fun item => listing_line (fst item) (snd item))).
    reflexivity. }
  rewrite Hrun. cbn [fst snd stdout registry].
  split; [reflexivity|]. split; [reflexivity|]. split; [reflexivity|].
  split.
  { right. right. apply in_map_iff.
    exists ("efficientnet_classification:v1.0.0", efficientnet now).
    split; [reflexivity|apply dict_set_in]. }
  split.
  { cbn [app length]. now rewrite length_map. }
  unfold script. rewrite init_registry. unfold script_body.
  unfold bind at 1. rewrite register_model_run_failed by reflexivity.
  auto.
Qed.

End Script.

(** ** Any run of the health check *)

Section AnyRun.

Import HealthChecker.

Local Open Scope py_scope.

Lemma prints_app (t1 t2 : list event) : prints (t1 ++ t2) = prints t1 + prints t2.
Proof.
  induction t1 as [|[c' b|l|z] t1 IH]; simpl; auto.
Qed.

Lemma succeeded_app (t1 t2 : list event) :
  succeeded (t1 ++ t2) = succeeded t1 || succeeded t2.
Proof.
  induction t1 as [|[c' [|]|l|z] t1 IH]; simpl; auto.
Qed.

Variables (service_type : string) (c : check) (max_retries : nat) (retry_delay : Z).

Hypothesis known : dict_get service_type checks = Some c.

Lemma prints_rounds (l : list nat) :
  prints (failed_rounds c service_type max_retries retry_delay l) = length l.
Proof.
  induction l as [|a l IH]; [reflexivity|].
  unfold failed_rounds in *. cbn [flat_map]. rewrite prints_app, IH. reflexivity.
Qed.

Lemma succeeded_rounds (l : list nat) :
  succeeded (failed_rounds c service_type max_retries retry_delay l) = false.
Proof.
  induction l as [|a l IH]; [reflexivity|].
  unfold failed_rounds in *. cbn [flat_map]. rewrite succeeded_app, IH. reflexivity.
Qed.

Lemma others_not_in_rounds (c' : check) (l : list nat) :
  check_eqb c' c = false ->
  invocations c' (failed_rounds c service_type max_retries retry_delay l) = 0.
Proof.
  intros Hne. induction l as [|a l IH]; [reflexivity|].
  unfold failed_rounds in *. cbn [flat_map]. rewrite invocations_app, IH.
  simpl. now rewrite Hne.
Qed.

(** Whatever the check answers, the loop makes some number [k] of failed
    passes over the first [k] attempts and then either succeeds or has used
    the whole range. *)
Lemma retry_loop_shape (range : list nat) :
  forall w : world,
  exists (k : nat) (b : bool),
    k <= length range /\
    (b = false -> k = length range) /\
    (b = true -> k < length range) /\
    retry_loop service_type max_retries retry_delay range w =
    (Returned b,
     {| answers := answers w;
        trace := trace w
                 ++ failed_rounds c service_type max_retries retry_delay (firstn k range)
                 ++ (if b then passed_round c service_type else []) |}).
Proof.
  induction range as [|a range IH]; intros w.
  - exists 0, false. simpl. unfold ret. rewrite app_nil_r.
    repeat split; try lia; try discriminate. destruct w; reflexivity.
  - destruct (answers w c (invocations c (trace w))) eqn:E.
    + exists 0, true. rewrite (retry_loop_passed_pass _ _ _ _ known) by assumption.
      simpl. repeat split; try lia; discriminate.
    + rewrite (retry_loop_failed_pass _ _ _ _ known) by assumption.
      destruct (IH {| answers := answers w;
                      trace := trace w ++ failed_rounds c service_type max_retries
                                            retry_delay [a] |})
        as (k & b & Hk & Hf & Ht & Hrun).
      exists (S k), b. rewrite Hrun. cbn [answers trace length firstn].
      split; [lia|]. split; [intros Hb; rewrite Hf by assumption; reflexivity|].
      split; [intros Hb; apply Ht in Hb; lia|].
      unfold failed_rounds. cbn [flat_map]. rewrite app_nil_r.
      rewrite <- !app_assoc. reflexivity.
Qed.

End AnyRun.

Section HealthMore.

Import HealthChecker.

Local Open Scope py_scope.

Lemma check_eqb_neq (a b : check) : a <> b -> check_eqb a b = false.
Proof. destruct a, b; simpl; congruence. Qed.

Lemma run_unknown (s : string) (w : world) :
  dict_get s checks = None ->
  run_health_check s w =
  (Returned false,
   {| answers := answers w;
      trace := trace w ++ [Printed ("Unknown service type: " ++ s)] |}).
Proof.
  intros Hs. unfold run_health_check, run_health_check_with, dict_mem.
  rewrite Hs. reflexivity.
Qed.

(** The events a run of [run_health_check] adds, whatever the answers. *)
Lemma run_health_check_shape (s : string) (w : world) :
  exists (b : bool) (ev : list event),
    run_health_check s w =
    (Returned b, {| answers := answers w; trace := trace w ++ ev |}) /\
    succeeded ev = b /\
    sleeps ev <= 30 /\
    (0 <= slept ev <= 60)%Z /\
    forall c, dict_get s checks = Some c ->
      invocations c ev <= 30 /\
      prints ev = invocations c ev /\
      invocations c ev = sleeps ev + (if b then 1 else 0) /\
      (b = false -> invocations c ev = 30) /\
      forall c', c' <> c -> invocations c' ev = 0.
Proof.
  destruct (dict_get s checks) as [c|] eqn:Hc.
  - unfold run_health_check. rewrite (run_known s c 30 2 Hc).
    destruct (retry_loop_shape s c 30 2 Hc (seq 0 30) w)
      as (k & b & Hk & Hf & Ht & Hrun).
    rewrite length_seq in Hk, Hf, Ht.
    rewrite firstn_range in Hrun by assumption.
    exists b. eexists. split; [exact Hrun|].
    rewrite succeeded_app, sleeps_app, slept_app.
    rewrite (succeeded_rounds s c 30 2), (sleeps_rounds s c 30 2),
      (slept_rounds s c 30 2), length_seq.
    assert (Htail : succeeded (if b then passed_round c s else []) = b /\
                    sleeps (if b then passed_round c s else []) = 0 /\
                    slept (if b then passed_round c s else []) = 0%Z /\
                    prints (if b then passed_round c s else []) = (if b then 1 else 0) /\
                    invocations c (if b then passed_round c s else [])
                    = (if b then 1 else 0)).
    { destruct b; simpl; rewrite ?check_eqb_refl; auto. }
    destruct Htail as (Hs & Hsl & Hst & Hp & Hi).
    rewrite Hs, Hsl, Hst.
    split; [reflexivity|]. split; [lia|]. split; [lia|].
    intros c0 E. inversion E; subst c0.
    rewrite invocations_app, prints_app.
    rewrite (invocations_rounds s c 30 2), (prints_rounds s c 30 2), length_seq, Hi, Hp.
    split; [destruct b; [specialize (Ht eq_refl)|]; lia|].
    split; [reflexivity|]. split; [lia|].
    split; [intros Hb; rewrite Hf by assumption; subst b; lia|].
    intros c' Hne. rewrite invocations_app.
    rewrite (others_not_in_rounds s c 30 2) by now apply check_eqb_neq.
    destruct b; simpl; [|reflexivity].
    now rewrite check_eqb_neq.
  - rewrite run_unknown by assumption.
    exists false. eexists. split; [reflexivity|].
    simpl. repeat split; try lia; discriminate.
Qed.

(** X14.  Whatever the selected check answers and whatever happened before,
    [run_health_check] for a known service calls the check at most 30 times,
    sleeps at most 30 times for at most 60 seconds in all, prints exactly one
    line for each call, and returns [True] exactly when one of its calls
    answered [True]; it sleeps once after each call but a successful one, and
    it returns [False] only after 30 calls. *)
Theorem run_is_bounded (s : string) (c : check) (w : world) :
  dict_get s checks = Some c ->
  exists (b : bool) (ev : list event),
    run_health_check s w =
    (Returned b, {| answers := answers w; trace := trace w ++ ev |}) /\
    invocations c ev <= 30 /\
    sleeps ev <= 30 /\
    (0 <= slept ev <= 60)%Z /\
    prints ev = invocations c ev /\
    invocations c ev = sleeps ev + (if b then 1 else 0) /\
    succeeded ev = b /\
    (b = false -> invocations c ev = 30).
Proof.
  intros Hc.
  destruct (run_health_check_shape s w) as (b & ev & Hrun & Hs & Hsl & Hst & Hall).
  destruct (Hall c Hc) as (Hi & Hp & Hacc & Hf & _).
  exists b, ev. repeat split; auto; lia.
Qed.

Lemma run_is_bounded_witness :
  exists (b : bool) (ev : list event),
    run_health_check "models" (fresh (fun _ i => Nat.eqb i 7)) =
    (Returned b, {| answers := fun _ i => Nat.eqb i 7; trace := [] ++ ev |}) /\
    invocations check_models_health ev <= 30 /\
    sleeps ev <= 30 /\
    (0 <= slept ev <= 60)%Z /\
    prints ev = invocations check_models_health ev /\
    invocations check_models_health ev = sleeps ev + (if b then 1 else 0) /\
    succeeded ev = b /\
    (b = false -> invocations check_models_health ev = 30).
Proof.
  apply (run_is_bounded "models" check_models_health (fresh (fun _ i => Nat.eqb i 7))).
  reflexivity.
Defined.

(** X15.  [run_health_check] calls no check but the one its argument selects:
    the number of calls of every other check is what it was before the run. *)
Theorem only_selected_check_is_called (s : string) (c c' : check) (w : world) :
  dict_get s checks = Some c ->
  c' <> c ->
  invocations c' (trace (snd (run_health_check s w))) = invocations c' (trace w).
Proof.
  intros Hc Hne.
  destruct (run_health_check_shape s w) as (b & ev & Hrun & _ & _ & _ & Hall).
  destruct (Hall c Hc) as (_ & _ & _ & _ & Hother).
  rewrite Hrun. cbn [snd trace]. rewrite invocations_app, (Hother c' Hne). lia.
Qed.

Lemma only_selected_check_is_called_witness :
  invocations check_api_health
    (trace (snd (run_health_check "redis" (fresh (fun _ _ => false))))) =
  invocations check_api_health (trace (fresh (fun _ _ => false))).
Proof.
  apply (only_selected_check_is_called "redis" check_redis_health check_api_health).
  - reflexivity.
  - discriminate.
Defined.

Lemma wrong_argument_count_aux (argv : list string) (w : world) :
  length argv <> 2 ->
  main argv w =
  (Returned 1%Z,
   {| answers := answers w;
      trace := trace w ++ [Printed "Usage: python health_check.py <service_type>";
                           Printed "Service types: api, database, redis, models"] |}).
Proof.
  intros Hlen. unfold main.
  apply Nat.eqb_neq in Hlen. rewrite Hlen. cbn [negb].
  unfold bind, print, log, ret. cbn [answers trace].
  now rewrite <- app_assoc.
Qed.

(** X17.  For every argument list and every behaviour of the checks, the
    script ends by exiting with 0 or with 1, never by an exception, and the
    code is 0 exactly when some check it called answered [True]; in any case it
    has slept at most 30 times, 60 seconds in all. *)
Theorem exit_code_tells_success (argv : list string) (w : world) :
  exists (code : Z) (ev : list event),
    main argv w = (Returned code, {| answers := answers w; trace := trace w ++ ev |}) /\
    (code = 0%Z \/ code = 1%Z) /\
    (code = 0%Z <-> succeeded ev = true) /\
    sleeps ev <= 30 /\
    (0 <= slept ev <= 60)%Z.
Proof.
  destruct (Nat.eqb (length argv) 2) eqn:Hlen.
  - unfold main. rewrite Hlen. cbn [negb].
    destruct (run_health_check_shape (nth 1 argv "") w)
      as (b & ev & Hrun & Hs & Hsl & Hst & _).
    unfold bind at 1. rewrite Hrun. destruct b.
    + exists 0%Z, ev. unfold ret. split; [reflexivity|].
      split; [now left|]. split; [tauto|]. split; assumption.
    + exists 1%Z. eexists. unfold bind, print, log, ret. cbn [answers trace].
      rewrite <- app_assoc. split; [reflexivity|].
      rewrite succeeded_app, sleeps_app, slept_app, Hs. simpl.
      split; [now right|]. split; [split; discriminate|]. split; lia.
  - apply Nat.eqb_neq in Hlen.
    rewrite (wrong_argument_count_aux argv w Hlen).
    exists 1%Z. eexists. split; [reflexivity|]. simpl.
    split; [now right|]. split; [split; discriminate|]. split; lia.
Qed.

(** X19.  Every run for a known service is a number [k <= 30] of failed
    rounds, each a call answering [False], the line
    ["<service> health check failed (attempt i/30)"] with [i] counting from 1,
    and a sleep of 2 seconds, followed either by a successful call and the
    line ["<service> health check passed"] (then the result is [True] and
    [k < 30]) or by nothing (then the result is [False] and [k = 30]). *)
Theorem run_is_rounds_then_verdict (s : string) (c : check) (w : world) :
  dict_get s checks = Some c ->
  exists (k : nat) (b : bool),
    k <= 30 /\
    (b = true -> k < 30) /\
    (b = false -> k = 30) /\
    run_health_check s w =
    (Returned b,
     {| answers := answers w;
        trace := trace w
                 ++ flat_map (fun i => [Called c false;
                                        Printed (s ++ " health check failed (attempt "
                                                   ++ str_of_nat (i + 1) ++ "/30)");
                                        Slept 2])
                             (seq 0 k)
                 ++ (if b then [Called c true; Printed (s ++ " health check passed")]
                     else []) |}).
Proof.
  intros Hc. unfold run_health_check. rewrite (run_known s c 30 2 Hc).
  destruct (retry_loop_shape s c 30 2 Hc (seq 0 30) w) as (k & b & Hk & Hf & Ht & Hrun).
  rewrite length_seq in Hk, Hf, Ht.
  rewrite firstn_range in Hrun by assumption.
  exists k, b. repeat split; auto.
Qed.

Lemma run_is_rounds_then_verdict_witness :
  exists (k : nat) (b : bool),
    k <= 30 /\
    (b = true -> k < 30) /\
    (b = false -> k = 30) /\
    run_health_check "api" (fresh (fun _ i => Nat.eqb i 1)) =
    (Returned b,
     {| answers := fun _ i => Nat.eqb i 1;
        trace := []
                 ++ flat_map (fun i => [Called check_api_health false;
                                        Printed ("api" ++ " health check failed (attempt "
                                                   ++ str_of_nat (i + 1) ++ "/30)");
                                        Slept 2])
                             (seq 0 k)
                 ++ (if b then [Called check_api_health true;
                                Printed ("api" ++ " health check passed")]
                     else []) |}).
Proof.
  apply (run_is_rounds_then_verdict "api" check_api_health
           (fresh (fun _ i => Nat.eqb i 1))).
  reflexivity.
Defined.

End HealthMore.

(** ** What ["latest"] ranges over *)

Section LatestClaims.

Local Open Scope py_scope.

Lemma prefix_splits (p : string) :
  forall k, String.prefix p k = true -> exists rest, k = (p ++ rest)%string.
Proof.
  induction p as [|a p IH]; intros k Hp.
  - exists k. reflexivity.
  - destruct k as [|b k]; cbn [String.prefix] in Hp; [discriminate|].
    destruct (ascii_dec a b) as [<-|]; [|discriminate].
    destruct (IH k Hp) as [rest ->]. exists rest. reflexivity.
Qed.

(** The keys that start with ["name:"] are the keys ["name:v"], [v] any
    string. *)
Lemma startswith_model_key (k n : string) :
  startswith k (n ++ ":") = true <-> exists v, k = model_key n v.
Proof.
  split.
  - intros Hp. destruct (prefix_splits _ _ Hp) as [rest ->].
    exists rest. unfold model_key. now rewrite append_assoc_colon.
  - intros [v ->]. apply model_key_startswith.
Qed.

(** The ["latest"] branch in terms of keys ["name:v"]. *)
Lemma get_latest_by_key (w : world) (n : string) :
  (get_model_info n "latest" w = (Returned None, w) /\
   forall v, dict_get (model_key n v) (registry w) = None)
  \/
  (exists v r,
     get_model_info n "latest" w = (Returned (Some r), w) /\
     dict_get (model_key n v) (registry w) = Some r /\
     forall v' r', dict_get (model_key n v') (registry w) = Some r' ->
                   String.leb (registered_at r') (registered_at r) = true).
Proof.
  destruct (get_latest_spec w n) as [[E Hnone] | (k & r & E & Hk & Hr & Hmax)].
  - left. split; [exact E|]. intros v.
    destruct (dict_get (model_key n v) (registry w)) eqn:Hv; [|reflexivity].
    apply dict_get_keys in Hv. apply Hnone in Hv.
    now rewrite model_key_startswith in Hv.
  - right. apply startswith_model_key in Hk. destruct Hk as [v ->].
    exists v, r. split; [exact E|]. split; [exact Hr|].
    intros v' r' Hr'. apply (Hmax (model_key n v')); [apply model_key_startswith|exact Hr'].
Qed.

(** C5, as the code has it.  [get_model_info name "latest"] returns [None]
    when no key ["name:v"] exists, and otherwise the record with the greatest
    [registered_at] among all records stored under a key ["name:v"].  When
    every record sits under the key of its own name and version and no
    registered name has a colon, those are the versions of [name] and no
    others, so the record returned has that name and the greatest
    [registered_at] among all records of that name.  In particular, when the
    registry holds no key ["name:v"] and [v1] is registered at [t1] and then
    [v2] at [t2 > t1], the lookup returns the record of [v2]. *)
Theorem latest_resolution (w : world) (n : string) :
  (exists res,
     get_model_info n "latest" w = (Returned res, w) /\
     ((forall v, dict_get (model_key n v) (registry w) = None) -> res = None) /\
     ((exists v, dict_get (model_key n v) (registry w) <> None) ->
      exists v r,
        res = Some r /\
        dict_get (model_key n v) (registry w) = Some r /\
        forall v' r', dict_get (model_key n v') (registry w) = Some r' ->
                      String.leb (registered_at r') (registered_at r) = true))
  /\
  (keyed_by_identity (registry w) -> colon_free_names (registry w) ->
   has_colon n = false ->
   forall r, fst (get_model_info n "latest" w) = Returned (Some r) ->
     name r = n /\
     forall k' r', dict_get k' (registry w) = Some r' -> name r' = n ->
                   String.leb (registered_at r') (registered_at r) = true)
  /\
  (forall t1 v1 p1 ty1 ms1 md1 t2 v2 p2 ty2 ms2 md2,
     (forall v, dict_get (model_key n v) (registry w) = None) ->
     String.ltb t1 t2 = true ->
     let w1 := snd (register_model t1 n v1 p1 ty1 ms1 md1 w) in
     let w2 := snd (register_model t2 n v2 p2 ty2 ms2 md2 w1) in
     get_model_info n "latest" w2 =
     (Returned (Some (model_info t2 n v2 p2 ty2 ms2 md2)), w2)).
Proof.
  split; [|split].
  - destruct (get_latest_by_key w n) as [[E Hnone] | (v & r & E & Hr & Hmax)].
    + exists None. split; [exact E|]. split; [reflexivity|].
      intros [v Hv]. now rewrite Hnone in Hv.
    + exists (Some r). split; [exact E|]. split.
      * intros Hnone. rewrite Hnone in Hr. discriminate.
      * intros _. exists v, r. auto.
  - intros Hkeys Hnames Hn r Hget.
    destruct (get_latest_by_key w n) as [[E _] | (v & r0 & E & Hr & Hmax)];
      rewrite E in Hget; simpl in Hget; [discriminate|].
    inversion Hget; subst r0. clear Hget.
    assert (Hname : name r = n).
    { symmetry. apply (key_splits_once n (name r) v (version r) Hn).
      - eapply Hnames; eauto.
      - rewrite <- (Hkeys _ _ Hr). apply model_key_startswith. }
    split; [exact Hname|].
    intros k' r' Hr' Hn'. apply (Hmax (version r')).
    rewrite <- Hn'. now rewrite <- (Hkeys _ _ Hr').
  - intros t1 v1 p1 ty1 ms1 md1 t2 v2 p2 ty2 ms2 md2 Hnone Hlt w1 w2.
    rewrite (surjective_pairing (get_model_info n "latest" w2)).
    rewrite get_model_info_frame. f_equal.
    apply latest_after_register.
    intros k r Hk Hr Hne. unfold w1 in Hr.
    rewrite register_model_registry in Hr.
    apply startswith_model_key in Hk. destruct Hk as [v ->].
    destruct (string_dec (model_key n v) (model_key n v1)) as [E|Hne1].
    + rewrite E, dict_get_set_same in Hr. inversion Hr; subst r. exact Hlt.
    + rewrite dict_get_set_other in Hr by assumption.
      rewrite Hnone in Hr. discriminate.
Qed.

(** C5 for a second model added to a registry that holds [m:v1]. *)
Lemma latest_resolution_witness :
  let w1 := snd (register_model "2024-01-01T10:00:00" "resnet" "v1" "a.pth"
                   "classification" [("accuracy", (80 # 100)%Q)] None holding_m_v1) in
  let w2 := snd (register_model "2024-01-02T09:30:00" "resnet" "v2" "b.pth"
                   "classification" [("accuracy", (90 # 100)%Q)] None w1) in
  get_model_info "resnet" "latest" w2 =
  (Returned (Some (model_info "2024-01-02T09:30:00" "resnet" "v2" "b.pth"
                     "classification" [("accuracy", (90 # 100)%Q)] None)), w2).
Proof.
  apply (proj2 (proj2 (latest_resolution holding_m_v1 "resnet"))).
  - intros v. reflexivity.
  - reflexivity.
Defined.

(** C5 as stated fails: with [("m", "v1")] and then [("m", "v2")] registered,
    and after them a model called ["m:x"], the lookup of the latest ["m"]
    returns the record of ["m:x"], which is no version of ["m"], and not the
    record of [v2]. *)
Lemma latest_resolution_counterexample :
  let w1 := snd (register_model "2024-01-01T10:00:00" "m" "v1" "a.pth"
                   "classification" [] None just_constructed) in
  let w2 := snd (register_model "2024-01-02T10:00:00" "m" "v2" "b.pth"
                   "classification" [] None w1) in
  let w3 := snd (register_model "2024-01-03T10:00:00" "m:x" "v1" "c.pth"
                   "detection" [] None w2) in
  fst (get_model_info "m" "latest" w3) =
  Returned (Some (model_info "2024-01-03T10:00:00" "m:x" "v1" "c.pth" "detection" [] None)) /\
  name (model_info "2024-01-03T10:00:00" "m:x" "v1" "c.pth" "detection" [] None) <> "m" /\
  fst (get_model_info "m" "latest" w3) <>
  Returned (Some (model_info "2024-01-02T10:00:00" "m" "v2" "b.pth" "classification" [] None)).
Proof.
  cbv zeta. split; [reflexivity|]. split; [discriminate|].
  intros H. vm_compute in H. discriminate H.
Qed.

(** C10, as the code has it.  The version ["latest"] is never looked up by
    exact key.  Whenever a record is stored under ["name:latest"],
    [get_model_info name "latest"] still resolves by timestamp over all keys
    ["name:v"]: what it returns is at least as recent as the record under
    ["name:latest"], and as soon as the record under some other key ["name:v"]
    is strictly more recent it is not that record.  When every record sits
    under the key of its own name and version and no registered name has a
    colon, a different record returned is a different version of that same
    name. *)
Theorem latest_is_reserved (w : world) (n : string) (r_latest : ModelRecord) :
  dict_get (model_key n "latest") (registry w) = Some r_latest ->
  (exists v r,
     get_model_info n "latest" w = (Returned (Some r), w) /\
     dict_get (model_key n v) (registry w) = Some r /\
     String.leb (registered_at r_latest) (registered_at r) = true /\
     forall v' r', dict_get (model_key n v') (registry w) = Some r' ->
                   String.leb (registered_at r') (registered_at r) = true) /\
  (forall v' r',
     dict_get (model_key n v') (registry w) = Some r' ->
     String.ltb (registered_at r_latest) (registered_at r') = true ->
     exists r,
       get_model_info n "latest" w = (Returned (Some r), w) /\
       r <> r_latest /\
       String.ltb (registered_at r_latest) (registered_at r) = true) /\
  (keyed_by_identity (registry w) -> colon_free_names (registry w) ->
   has_colon n = false ->
   forall r, fst (get_model_info n "latest" w) = Returned (Some r) ->
     r <> r_latest ->
     name r = n /\ version r <> "latest").
Proof.
  intros Hl.
  destruct (get_latest_by_key w n) as [[_ Hnone] | (v & r & E & Hr & Hmax)].
  { rewrite Hnone in Hl. discriminate. }
  split; [|split].
  - exists v, r. repeat split; eauto.
  - intros v' r' Hr' Hlt. exists r. split; [exact E|].
    assert (Hlt' : String.ltb (registered_at r_latest) (registered_at r) = true).
    { specialize (Hmax _ _ Hr').
      destruct (String.ltb (registered_at r_latest) (registered_at r)) eqn:F;
        [reflexivity|].
      apply str_ltb_false_leb in F.
      exfalso. eapply str_leb_ltb_absurd; [|exact Hlt].
      eapply str_leb_trans; eauto. }
    split; [|exact Hlt'].
    intros ->. rewrite str_ltb_irrefl in Hlt'. discriminate.
  - intros Hkeys Hnames Hn r0 Hget Hdiff.
    rewrite E in Hget. simpl in Hget. inversion Hget; subst r0. clear Hget.
    assert (Hname : name r = n).
    { symmetry. apply (key_splits_once n (name r) v (version r) Hn).
      - eapply Hnames; eauto.
      - rewrite <- (Hkeys _ _ Hr). apply model_key_startswith. }
    split; [exact Hname|].
    intros Hv. apply Hdiff.
    assert (Hk : model_key n v = model_key n "latest").
    { rewrite (Hkeys _ _ Hr), Hname, Hv. reflexivity. }
    rewrite Hk, Hl in Hr. now inversion Hr.
Qed.

(** C10 on a registry that holds [m:v1], after [("m", "latest")] and then
    [("m", "v2")] have been registered: the lookup of ["latest"] returns a
    record other than the one registered as ["latest"]. *)
Lemma latest_is_reserved_witness :
  let w1 := snd (register_model "2024-02-01T00:00:00" "m" "latest" "a.pth" "detection"
                   [("accuracy", (1 # 2)%Q)] None holding_m_v1) in
  let w2 := snd (register_model "2024-02-02T00:00:00" "m" "v2" "b.pth" "detection"
                   [("accuracy", (9 # 10)%Q)] None w1) in
  exists r,
    get_model_info "m" "latest" w2 = (Returned (Some r), w2) /\
    r <> model_info "2024-02-01T00:00:00" "m" "latest" "a.pth" "detection"
           [("accuracy", (1 # 2)%Q)] None /\
    String.ltb "2024-02-01T00:00:00" (registered_at r) = true.
Proof.
  intros w1 w2.
  refine (proj1 (proj2 (latest_is_reserved w2 "m"
                   (model_info "2024-02-01T00:00:00" "m" "latest" "a.pth" "detection"
                      [("accuracy", (1 # 2)%Q)] None) eq_refl))
            "v2"
            (model_info "2024-02-02T00:00:00" "m" "v2" "b.pth" "detection"
               [("accuracy", (9 # 10)%Q)] None) eq_refl eq_refl).
Defined.

(** C10 as stated fails: resolution is not over the versions of that name.
    With [("m", "latest")] registered and then a model called ["m:x"], the
    lookup of [("m", "latest")] returns the record of ["m:x"], which is no
    version of ["m"]. *)
Lemma latest_is_reserved_counterexample :
  let w1 := snd (register_model "2024-02-01T00:00:00" "m" "latest" "a.pth" "detection"
                   [] None just_constructed) in
  let w2 := snd (register_model "2024-02-02T00:00:00" "m:x" "v1" "b.pth" "detection"
                   [] None w1) in
  dict_get (model_key "m" "latest") (registry w2) =
  Some (model_info "2024-02-01T00:00:00" "m" "latest" "a.pth" "detection" [] None) /\
  fst (get_model_info "m" "latest" w2) =
  Returned (Some (model_info "2024-02-02T00:00:00" "m:x" "v1" "b.pth" "detection" [] None)) /\
  name (model_info "2024-02-02T00:00:00" "m:x" "v1" "b.pth" "detection" [] None) <> "m".
Proof.
  cbv zeta. split; [reflexivity|]. split; [reflexivity|]. discriminate.
Qed.

End LatestClaims.
